(** * Diving social app: the REST facade over the hosted provider

    A shallow embedding of the Express route modules of the backend
    ([routes/users.js], [routes/auth.js], [routes/dives.js]) and the
    properties the specification states about them.

    Conventions of the embedding.
    - A JavaScript string is held as the bytes of its UTF-8 encoding (the
      way a string literal of this file is stored); [JS.length] counts
      UTF-16 code units from those bytes, as [String.prototype.length]
      does.
    - Integers produced by [parseInt], row counts and the pagination
      arithmetic are in [Z]; depths are rationals ([Qc]), on which the
      comparisons [>] and [===] of finite JavaScript numbers are exact.
      The arithmetic is the mathematical one: the model covers the range in
      which IEEE doubles represent the integers involved exactly.
    - A route handler is a finite tree of provider calls ([Handler]); the
      identifier [supabase] it refers to is resolved by the module that
      declares the route. *)

From Stdlib Require Import ZArith QArith Qcanon Ascii String List Lia.
From stdpp Require Import base tactics option list strings numbers gmap.

Local Open Scope string_scope.
Local Open Scope Z_scope.

(** ** JavaScript primitives used by the routes *)

Module JS.

Definition code (c : ascii) : N := N_of_ascii c.

Definition between (lo hi : N) (c : ascii) : bool :=
  ((lo <=? code c) && (code c <=? hi))%N.

(** [s.length]: one unit per code point of the basic plane, two for a
    code point encoded on four bytes; continuation bytes count for
    nothing. *)
Fixpoint length (s : string) : nat :=
  match s with
  | EmptyString => 0%nat
  | String c r =>
      (if between 128 191 c then 0 else if between 240 255 c then 2 else 1)%nat
      + length r
  end.

(** White space and line terminators of ECMAScript ([StrWhiteSpaceChar]),
    as UTF-8 byte sequences: U+0009..U+000D, U+0020, U+00A0, U+1680,
    U+2000..U+200A, U+2028, U+2029, U+202F, U+205F, U+3000, U+FEFF. *)
Definition ws_width (l : list ascii) : nat :=
  match l with
  | c :: r =>
      if between 9 13 c || between 32 32 c then 1%nat
      else match r with
           | c2 :: r2 =>
               if between 194 194 c && between 160 160 c2 then 2%nat
               else match r2 with
                    | c3 :: _ =>
                        let b1 := code c in let b2 := code c2 in let b3 := code c3 in
                        if ((b1 =? 225) && (b2 =? 154) && (b3 =? 128))%N
                           || ((b1 =? 226) && (b2 =? 128)
                               && ((128 <=? b3) && (b3 <=? 138)
                                   || (b3 =? 168) || (b3 =? 169) || (b3 =? 175)))%N
                           || ((b1 =? 226) && (b2 =? 129) && (b3 =? 159))%N
                           || ((b1 =? 227) && (b2 =? 128) && (b3 =? 128))%N
                           || ((b1 =? 239) && (b2 =? 187) && (b3 =? 191))%N
                        then 3%nat else 0%nat
                    | [] => 0%nat
                    end
           | [] => 0%nat
           end
  | [] => 0%nat
  end.

Fixpoint skip_ws (fuel : nat) (l : list ascii) : list ascii :=
  match fuel with
  | O => l
  | S fuel' =>
      match ws_width l with
      | O => l
      | w => skip_ws fuel' (drop w l)
      end
  end.

Definition trimStart (l : list ascii) : list ascii := skip_ws (List.length l) l.

(** The same white space read from the end of the string. *)
Definition ws_width_end (r : list ascii) : nat :=
  match r with
  | c :: _ =>
      if between 9 13 c || between 32 32 c then 1%nat
      else match r with
           | c2 :: c1 :: _ =>
               if between 194 194 c1 && between 160 160 c2 then 2%nat
               else match r with
                    | c3 :: c2 :: c1 :: _ =>
                        if Nat.eqb (ws_width [c1; c2; c3]) 3 then 3%nat else 0%nat
                    | _ => 0%nat
                    end
           | _ => 0%nat
           end
  | [] => 0%nat
  end.

Fixpoint skip_ws_end (fuel : nat) (r : list ascii) : list ascii :=
  match fuel with
  | O => r
  | S fuel' =>
      match ws_width_end r with
      | O => r
      | w => skip_ws_end fuel' (drop w r)
      end
  end.

(** [s.trim()] *)
Definition trim (s : string) : string :=
  let l := trimStart (list_ascii_of_string s) in
  string_of_list_ascii (rev (skip_ws_end (List.length l) (rev l))).

(** [s.includes(needle)] *)
Fixpoint includes (s needle : string) : bool :=
  String.prefix needle s
  || match s with
     | EmptyString => false
     | String _ r => includes r needle
     end.

(** [s.replace(pat, repl)] with a string pattern: the first occurrence
    only. *)
Fixpoint replace (s pat repl : string) : string :=
  if String.prefix pat s
  then repl ++ String.substring (String.length pat) (String.length s - String.length pat) s
  else match s with
       | EmptyString => EmptyString
       | String c r => String c (replace r pat repl)
       end.

(** *** parseInt(string) with no radix argument.  [None] is NaN. *)

Definition digit_value (radix : N) (c : ascii) : option Z :=
  let v :=
    if between 48 57 c then Some (code c - 48)%N
    else if between 97 122 c then Some (code c - 87)%N
    else if between 65 90 c then Some (code c - 55)%N
    else None in
  match v with
  | Some d => if (d <? radix)%N then Some (Z.of_N d) else None
  | None => None
  end.

(** The longest prefix of digits, accumulated from the left; [None] when
    that prefix is empty. *)
Fixpoint digits (radix : N) (acc : option Z) (l : list ascii) : option Z :=
  match l with
  | c :: r =>
      match digit_value radix c with
      | Some d => digits radix (Some (Z.of_N radix * default 0 acc + d)) r
      | None => acc
      end
  | [] => acc
  end.

Definition is_char (n : N) (c : ascii) : bool := (code c =? n)%N.

Definition parseInt (s : string) : option Z :=
  let l := trimStart (list_ascii_of_string s) in
  let '(sign, l) :=
    match l with
    | c :: r => if is_char 45 c then (-1, r) else if is_char 43 c then (1, r) else (1, l)
    | [] => (1, l)
    end in
  let '(radix, l) :=
    match l with
    | c0 :: cx :: r =>
        if is_char 48 c0 && (is_char 120 cx || is_char 88 cx) then (16%N, r) else (10%N, l)
    | _ => (10%N, l)
    end in
  match digits radix None l with
  | Some n => Some (sign * n)
  | None => None
  end.

(** [parseInt(x) || d]: NaN and zero are falsy. *)
Definition parseInt_or (x : option string) (d : Z) : Z :=
  match parseInt (default "undefined" x) with
  | Some n => if Z.eqb n 0 then d else n
  | None => d
  end.

(** [x || d] on an optional string: [undefined] and the empty string are
    falsy. *)
Definition truthy_str (x : option string) : bool :=
  match x with
  | Some s => negb (String.eqb s "")
  | None => false
  end.

Definition str_or (x : option string) (d : string) : string :=
  if truthy_str x then default d x else d.

(** [Math.ceil(a / b)] for integers [a] and [b], [b] not zero. *)
Definition ceil_div (a b : Z) : Z := - ((- a) / b).

(** *** Regular expressions of the shape the routes use: a sequence of
    literals and character classes, each with a repetition count,
    anchored at both ends. *)

Inductive Term :=
| Lit (c : ascii)
| Class (ranges : list (ascii * ascii)).

Record RegExp := {
  pattern : list (Term * nat);
  ignoreCase : bool
}.

(** Canonicalisation under the [i] flag (no [u] flag): upper-casing; a
    code unit outside ASCII never canonicalises to an ASCII one. *)
Definition canonicalize (c : ascii) : ascii :=
  if between 97 122 c then ascii_of_N (code c - 32) else c.

Definition members (r : ascii * ascii) : list ascii :=
  map (fun i => ascii_of_nat (nat_of_ascii (fst r) + i))
      (seq 0 (S (nat_of_ascii (snd r)) - nat_of_ascii (fst r))).

Definition same_char (i : bool) (a b : ascii) : bool :=
  if i then Ascii.eqb (canonicalize a) (canonicalize b) else Ascii.eqb a b.

Definition term_matches (i : bool) (t : Term) (c : ascii) : bool :=
  match t with
  | Lit a => same_char i a c
  | Class ranges => existsb (fun r => existsb (fun a => same_char i a c) (members r)) ranges
  end.

Definition expand (p : list (Term * nat)) : list Term :=
  flat_map (fun tn => repeat (fst tn) (snd tn)) p.

Fixpoint matches (i : bool) (ts : list Term) (s : string) : bool :=
  match ts, s with
  | [], EmptyString => true
  | t :: ts', String c s' => term_matches i t c && matches i ts' s'
  | _, _ => false
  end.

(** [re.test(s)] *)
Definition test (re : RegExp) (s : string) : bool :=
  matches (ignoreCase re) (expand (pattern re)) s.

End JS.


(** ** JSON values, requests and responses *)

#[local] Set Warnings "-register-all,-clear-no-such-hyp".

Inductive JSON :=
| JNull
| JBool (b : bool)
| JNum (q : Qc)
| JStr (s : string)
| JArr (items : list JSON)
| JObj (fields : list (string * JSON)).

Definition JInt (z : Z) : JSON := JNum (Qc_of_Z z).

(** A JavaScript object under construction: properties in insertion
    order. *)
Abbreviation Obj := (list (string * JSON)).

Fixpoint obj_get (o : Obj) (k : string) : option JSON :=
  match o with
  | [] => None
  | (k', v) :: o' => if String.eqb k' k then Some v else obj_get o' k
  end.

(** [o[k] = v]: an existing property keeps its place. *)
Fixpoint obj_set (o : Obj) (k : string) (v : JSON) : Obj :=
  match o with
  | [] => [(k, v)]
  | (k', v') :: o' => if String.eqb k' k then (k, v) :: o' else (k', v') :: obj_set o' k v
  end.

(** [delete o[k]] *)
Definition obj_delete (o : Obj) (k : string) : Obj :=
  filter (fun kv => negb (String.eqb (fst kv) k)) o.

(** [Object.keys(o)] *)
Definition Object_keys (o : Obj) : list string := map fst o.

(** An object literal some of whose values may be [undefined]: those
    properties are left out of the serialised body. *)
Definition literal (l : list (string * option JSON)) : JSON :=
  JObj (omap (fun kv => match snd kv with Some v => Some (fst kv, v) | None => None end) l).

(** Truthiness of a value that may be [undefined]. *)
Definition truthy (x : option JSON) : bool :=
  match x with
  | None | Some JNull => false
  | Some (JBool b) => b
  | Some (JNum q) => negb (bool_decide (q = 0%Qc))
  | Some (JStr s) => negb (String.eqb s "")
  | Some (JArr _) | Some (JObj _) => true
  end.

(** [x || d] *)
Definition js_or (x : option JSON) (d : JSON) : JSON :=
  if truthy x then default d x else d.

(** [x?.k]: a property read on a value that may be [null] or [undefined];
    only objects carry the properties the routes read. *)
Definition opt_prop (x : option JSON) (k : string) : option JSON :=
  match x with
  | Some (JObj o) => obj_get o k
  | _ => None
  end.

Definition of_str (x : option string) : option JSON := JStr <$> x.

Inductive Method := GET | POST | PUT.

(** What a route reads of a request: the path below the mount point, split
    at the slashes; the parsed query string, each parameter given once, as
    a string; the [Authorization] header; the
    parsed JSON body, of the shape [B] the route module reads it at; and the
    reading of the clock the handler takes with [new Date().toISOString()]. *)
Record Request (B : Type) := {
  method : Method;
  path : list string;
  query : gmap string string;
  authorization : option string;
  body : B;
  clock : string
}.
Arguments method {B} _.
Arguments path {B} _.
Arguments query {B} _.
Arguments authorization {B} _.
Arguments body {B} _.
Arguments clock {B} _.

Record Response := {
  status : Z;
  payload : JSON
}.

(** [res.status(code).json(o)] and [res.json(o)] *)
Definition respond (code : Z) (o : Obj) : Response := {| status := code; payload := JObj o |}.
Definition json (o : Obj) : Response := respond 200 o.

(** A property of the response body. *)
Definition field (r : Response) (k : string) : option JSON := opt_prop (Some (payload r)) k.

(** ** The provider client

    Each constructor is one of the queries the routes build with the
    client, with the arguments the route passes; its index is the type of
    what the awaited query resolves to. *)

Record PgError := {
  code : option string;
  message : string
}.

Record Reply (A : Type) := {
  data : option A;
  error : option PgError;
  count : option Z
}.
Arguments data {A} _.
Arguments error {A} _.
Arguments count {A} _.

Record AuthUser := { auth_id : string; auth_email : string }.

Record Session := {
  access_token : string;
  refresh_token : string;
  expires_at : Z
}.

Record AuthData := {
  user : option AuthUser;
  session : option Session
}.

(** The row [dives/create] inserts. *)
Record NewDive := {
  nd_user_id : string;
  nd_dive_type : string;
  nd_dive_number : Z;
  nd_location_name : string;
  nd_country : JSON;
  nd_coordinates : option (Qc * Qc);  (* POINT(lng lat), or null *)
  nd_dive_date : string;
  nd_duration_minutes : JSON;
  nd_max_depth : Qc;
  nd_average_depth : JSON;
  nd_water_temperature : JSON;
  nd_visibility_meters : JSON;
  nd_weather : JSON;
  nd_current_strength : JSON;
  nd_equipment : JSON;
  nd_air_consumption : option JSON;
  nd_safety_buddy_name : JSON;
  nd_marine_life : JSON;
  nd_notes : JSON;
  nd_rating : JSON;
  nd_photos_count : Z;
  nd_videos_count : Z
}.

(** The object [dives/create] passes to the update of the user's row;
    [su_deepest_dive] is [None] when the property is not set. *)
Record StatsUpdate := {
  su_total_dives : Z;
  su_updated_at : string;
  su_deepest_dive : option Qc
}.

(** A row of the statistics query of [users/:id]:
    [select('dive_type, max_depth, dive_date')]. *)
Record DiveStat := {
  ds_dive_type : string;
  ds_max_depth : JSON;
  ds_dive_date : JSON
}.

Inductive supabaseE : Type -> Type :=
(* routes/users.js *)
| UsersSelectPage (from to : Z) (order_by : string) (ascending : bool)
  : supabaseE (Reply JSON)
| UsersSelectById (id : string) : supabaseE (Reply Obj)
| DivesSelectStats (user_id : string) : supabaseE (Reply (list DiveStat))
| UsersUpdateById (changes : Obj) (id : string) : supabaseE (Reply JSON)
| UsersSearch (name_like : string) (location_like experience : option string) (limit : Z)
  : supabaseE (Reply (list JSON))
(* routes/auth.js *)
| AuthSignUp (email password name diving_experience : string) : supabaseE (Reply AuthData)
| UsersInsert (row : Obj) : supabaseE (Reply Obj)
(* routes/dives.js *)
| AuthGetUser (token : string) : supabaseE (Reply (option AuthUser))
| DivesCountByUser (user_id : string) : supabaseE (Reply unit)
| DivesInsert (row : NewDive) : supabaseE (Reply JSON)
| UsersSelectDeepest (id : string) : supabaseE (Reply (option Qc))
| UsersUpdateStats (changes : StatsUpdate) (id : string) : supabaseE (Reply unit)
| DivesSelectPage (from to : Z) (user_id dive_type location_like : option string)
  : supabaseE (Reply (list Obj))
| DivesSelectById (id : string) : supabaseE (Reply Obj).

(** The body of an [async] route handler: it answers, throws, or awaits a
    provider query and goes on with what the query resolved to. *)
Inductive Handler (R : Type) : Type :=
| Done (r : R)
| Raise
| Ask {X : Type} (e : supabaseE X) (k : X -> Handler R).
Arguments Done {R} _.
Arguments Raise {R}.
Arguments Ask {R X} _ _.

Notation "'let*' x := e 'in' k" := (Ask e (fun x => k))
  (at level 10, x name, e at level 100, k at level 200).

Inductive Call :=
| Called {X : Type} (e : supabaseE X).

(** A client over a provider in state [S]: an awaited query resolves to a
    value or rejects ([None]). *)
Record Client (S : Type) := {
  perform : forall X, supabaseE X -> S -> option X * S
}.
Arguments perform {S} _ {X} _ _.

(** What the identifier [supabase] resolves to in the module that declares
    a route. *)
Inductive Binding (S : Type) :=
| Unbound
| Bound (c : Client S).
Arguments Unbound {S}.
Arguments Bound {S} _.

(** Running a handler: the answer ([None] when an exception reached the
    handler's [catch]), the provider's state and the queries issued, in
    order.  Evaluating [supabase] where no declaration binds it throws a
    ReferenceError before any query is issued. *)
Fixpoint run {S R : Type} (b : Binding S) (h : Handler R) (s : S)
  : option R * S * list Call :=
  match h with
  | Done r => (Some r, s, [])
  | Raise => (None, s, [])
  | Ask e k =>
      match b with
      | Unbound => (None, s, [])
      | Bound c =>
          match perform c e s with
          | (Some x, s') =>
              let '(r, s'', calls) := run b (k x) s' in (r, s'', Called e :: calls)
          | (None, s') => (None, s', [Called e])
          end
      end
  end.

(** ** Routers

    [router.get(path, handler)] and the like register routes in order; a
    request is given to the first route whose method and path match, and
    none of the handlers here passes it on. *)

Inductive Pattern :=
| Root                    (* '/' *)
| Literal (seg : string)  (* '/list' *)
| Param (name : string).  (* '/:id' *)

Definition lower (c : ascii) : ascii :=
  if JS.between 65 90 c then ascii_of_N (JS.code c + 32) else c.

Fixpoint lowercase (s : string) : string :=
  match s with
  | EmptyString => EmptyString
  | String c r => String (lower c) (lowercase r)
  end.

(** [req.params] when the path matches; the segments are the non-empty
    components of the path, and a literal is matched whatever the case, as
    the router's defaults have it. *)
Definition match_path (p : Pattern) (segments : list string) : option (gmap string string) :=
  match p, segments with
  | Root, [] => Some ∅
  | Literal seg, [s] => if String.eqb (lowercase seg) (lowercase s) then Some ∅ else None
  | Param name, [s] => if String.eqb s "" then None else Some {[ name := s ]}
  | _, _ => None
  end.

Definition same_method (a b : Method) : bool :=
  match a, b with
  | GET, GET | POST, POST | PUT, PUT => true
  | _, _ => false
  end.

(** A registered route: the [try] block of its handler and the answer of
    its [catch]. *)
Record Route (B : Type) := {
  verb : Method;
  at_path : Pattern;
  attempt : gmap string string -> Request B -> Handler Response;
  rescue : Response
}.
Arguments verb {B} _.
Arguments at_path {B} _.
Arguments attempt {B} _ _ _.
Arguments rescue {B} _.

Fixpoint dispatch {B : Type} (routes : list (Route B)) (req : Request B)
  : option (Handler Response * Response) :=
  match routes with
  | [] => None
  | r :: rest =>
      match (if same_method (verb r) (method req) then match_path (at_path r) (path req)
             else None) with
      | Some params => Some (attempt r params req, rescue r)
      | None => dispatch rest req
      end
  end.

(** The answer of a mounted router to a request, the state the provider is
    left in and the queries issued; [None] when no route of the router
    matches (the application's 404 handler takes over). *)
Definition serve {S B : Type} (b : Binding S) (routes : list (Route B)) (req : Request B) (s : S)
  : option (Response * S * list Call) :=
  match dispatch routes req with
  | Some (h, on_throw) =>
      let '(res, s', calls) := run b h s in
      Some (default on_throw res, s', calls)
  | None => None
  end.

(** The pattern [/^[0-9a-f]{8}-[0-9a-f]{4}-[1-5][0-9a-f]{3}-[89ab][0-9a-f]{3}-[0-9a-f]{12}$/i]
    that the three routes taking an identifier declare. *)
Definition uuidRegex : JS.RegExp :=
  let hex := JS.Class [("0", "9"); ("a", "f")]%char in
  let dash := JS.Lit "-"%char in
  {| JS.pattern :=
       [(hex, 8); (dash, 1); (hex, 4); (dash, 1);
        (JS.Class [("1", "5")]%char, 1); (hex, 3); (dash, 1);
        (JS.Class [("8", "8"); ("9", "9"); ("a", "a"); ("b", "b")]%char, 1); (hex, 3); (dash, 1);
        (hex, 12)]%nat;
     JS.ignoreCase := true |}.

(** The answer of the application's error middleware, for a handler
    that has no [catch] of its own. *)
Definition unhandled : Response :=
  respond 500 [("error", JStr "Internal Server Error");
               ("message", JStr "서버에서 오류가 발생했습니다.")].

(** ** routes/users.js *)

Module Users.

(** A body is read as the parsed JSON object: a property is present or
    not, with any value. *)
Abbreviation Body := (gmap string JSON).

(** [router.get('/')] *)
Definition home (_ : gmap string string) (_ : Request Body) : Handler Response :=
  Done (json [("message", JStr "👤 Users API");
              ("available_endpoints", JObj [
                 ("list", JStr "GET /api/users (모든 사용자 조회)");
                 ("profile", JStr "GET /api/users/:id (특정 사용자 프로필)");
                 ("update", JStr "PUT /api/users/:id (프로필 수정)");
                 ("settings", JStr "GET/PUT /api/users/:id/settings (설정 관리)");
                 ("search", JStr "GET /api/users/search?q=keyword (사용자 검색)");
                 ("buddies", JStr "GET /api/users/:id/buddies (버디 목록)")])]).

(** The column and direction the [sort] parameter selects. *)
Definition ordering (sort : string) : string * bool :=
  if String.eqb sort "total_dives" then ("total_dives", false)
  else if String.eqb sort "name" then ("name", true)
  else ("created_at", false).

(** The [pagination] object of a list answer. *)
Definition pagination (total_key : string) (page limit startIndex : Z) (count : option Z) : JSON :=
  JObj [("current_page", JInt page);
        ("per_page", JInt limit);
        (total_key, from_option JInt JNull count);
        ("total_pages", JInt (JS.ceil_div (default 0 count) limit));
        ("has_next", JBool (startIndex + limit <? default 0 count));
        ("has_prev", JBool (1 <? page))].

(** [router.get('/list')] *)
Definition list_users (_ : gmap string string) (req : Request Body) : Handler Response :=
  let page := JS.parseInt_or (query req !! "page") 1 in
  let limit := JS.parseInt_or (query req !! "limit") 10 in
  let sort := JS.str_or (query req !! "sort") "created_at" in
  let startIndex := (page - 1) * limit in
  let* r := UsersSelectPage startIndex (startIndex + limit - 1)
              (fst (ordering sort)) (snd (ordering sort)) in
  match error r with
  | Some _ =>
      Done (respond 500 [("error", JStr "Database Error");
                         ("message", JStr "사용자 목록 조회 중 오류가 발생했습니다.")])
  | None =>
      Done (json [("message", JStr "사용자 목록 조회 성공");
                  ("data", default JNull (data r));
                  ("pagination", pagination "total_users" page limit startIndex (count r));
                  ("sort", JStr sort)])
  end.

Definition list_users_rescue : Response :=
  respond 500 [("error", JStr "Internal Server Error");
               ("message", JStr "사용자 목록 조회 중 오류가 발생했습니다.")].

(** The [reduce] that counts the dives of each type. *)
Definition count_types (diveStats : list DiveStat) : Obj :=
  foldl (fun acc dive =>
           let key := ds_dive_type dive in
           match obj_get acc key with
           | Some (JNum n) => obj_set acc key (JNum (n + 1)%Qc)
           | _ => obj_set acc key (JInt 1)
           end)
        [] diveStats.

(** [router.get('/:id')] *)
Definition get_user (params : gmap string string) (req : Request Body) : Handler Response :=
  let userId := default "undefined" (params !! "id") in
  if negb (JS.test uuidRegex userId) then
    Done (respond 400 [("error", JStr "Bad Request");
                       ("message", JStr "유효하지 않은 사용자 ID 형식입니다.");
                       ("example", JStr "/api/users/123e4567-e89b-12d3-a456-426614174000")])
  else
    let* r := UsersSelectById userId in
    match error r with
    | Some e =>
        if bool_decide (code e = Some "PGRST116") then
          Done (respond 404 [("error", JStr "Not Found");
                             ("message", JStr "사용자를 찾을 수 없습니다.")])
        else
          Done (respond 500 [("error", JStr "Database Error");
                             ("message", JStr "사용자 조회 중 오류가 발생했습니다.")])
    | None =>
        let* st := DivesSelectStats userId in
        let diveStats := data st in
        let stats :=
          JObj [("total_photos", JInt 0);
                ("buddies_count", JInt 0);
                ("recent_dives", JInt (Z.of_nat (from_option List.length 0%nat diveStats)));
                ("dive_types", JObj (from_option count_types [] diveStats))] in
        Done (json [("message", JStr "사용자 프로필 조회 성공");
                    ("user", JObj (obj_set (default [] (data r)) "stats" stats))])
    end.

Definition get_user_rescue : Response :=
  respond 500 [("error", JStr "Internal Server Error");
               ("message", JStr "사용자 프로필 조회 중 오류가 발생했습니다.")].

Definition allowedFields : list string :=
  ["name"; "bio"; "location"; "diving_experience";
   "certifications"; "social_links"; "preferences"].

(** The callback of the [forEach] over [allowedFields]: a property of
    [updateData] that is not [undefined] is copied to [filteredData]. *)
Definition keep (updateData : gmap string JSON) (filteredData : Obj) (field : string) : Obj :=
  match updateData !! field with
  | Some v => obj_set filteredData field v
  | None => filteredData
  end.

Definition filter_fields (updateData : gmap string JSON) : Obj :=
  foldl (keep updateData) [] allowedFields.

(** [router.put('/:id')] *)
Definition update_user (params : gmap string string) (req : Request Body) : Handler Response :=
  let userId := default "undefined" (params !! "id") in
  let updateData := body req in
  if negb (JS.test uuidRegex userId) then
    Done (respond 400 [("error", JStr "Bad Request");
                       ("message", JStr "유효하지 않은 사용자 ID 형식입니다.")])
  else
    let filteredData := filter_fields updateData in
    if Nat.eqb (List.length (Object_keys filteredData)) 0 then
      Done (respond 400 [("error", JStr "Bad Request");
                         ("message", JStr "수정할 데이터가 없습니다.");
                         ("allowed_fields", JArr (map JStr allowedFields))])
    else
      let filteredData := obj_set filteredData "updated_at" (JStr (clock req)) in
      let* r := UsersUpdateById filteredData userId in
      match error r with
      | Some e =>
          if bool_decide (code e = Some "PGRST116") then
            Done (respond 404 [("error", JStr "Not Found");
                               ("message", JStr "사용자를 찾을 수 없습니다.")])
          else
            Done (respond 500 [("error", JStr "Database Error");
                               ("message", JStr "프로필 수정 중 오류가 발생했습니다.")])
      | None =>
          Done (json [("message", JStr "프로필 수정 성공! ✨");
                      ("user", default JNull (data r));
                      ("updated_fields", JArr (map JStr (Object_keys filteredData)))])
      end.

Definition update_user_rescue : Response :=
  respond 500 [("error", JStr "Internal Server Error");
               ("message", JStr "프로필 수정 중 오류가 발생했습니다.")].

(** [router.get('/search')] *)
Definition search_users (_ : gmap string string) (req : Request Body) : Handler Response :=
  let location := query req !! "location" in
  let experience := query req !! "experience" in
  let query := query req !! "q" in
  if negb (JS.truthy_str query)
     || (JS.length (JS.trim (default "" query)) <? 2)%nat then
    Done (respond 400 [("error", JStr "Bad Request");
                       ("message", JStr "검색어는 최소 2글자 이상이어야 합니다.");
                       ("example", JStr "/api/users/search?q=김다이버&location=제주도")])
  else
    let q := default "" query in
    let* r := UsersSearch ("%" ++ q ++ "%")
                (if JS.truthy_str location then Some ("%" ++ default "" location ++ "%") else None)
                (if JS.truthy_str experience then experience else None)
                20 in
    match error r with
    | Some _ =>
        Done (respond 500 [("error", JStr "Database Error");
                           ("message", JStr "사용자 검색 중 오류가 발생했습니다.")])
    | None =>
        match data r with
        | None => Raise
        | Some searchResults =>
            Done (json [("message", JStr "사용자 검색 성공");
                        ("query", JObj [("search_term", JStr q);
                                        ("location_filter", js_or (of_str location) JNull);
                                        ("experience_filter", js_or (of_str experience) JNull)]);
                        ("results", JArr searchResults);
                        ("total_found", JInt (Z.of_nat (List.length searchResults)))])
        end
    end.

Definition search_users_rescue : Response :=
  respond 500 [("error", JStr "Internal Server Error");
               ("message", JStr "사용자 검색 중 오류가 발생했습니다.")].

(** The router the module exports, in the order of registration. *)
Definition router : list (Route Body) :=
  [ {| verb := GET; at_path := Root; attempt := home; rescue := unhandled |};
    {| verb := GET; at_path := Literal "list"; attempt := list_users;
       rescue := list_users_rescue |};
    {| verb := GET; at_path := Param "id"; attempt := get_user; rescue := get_user_rescue |};
    {| verb := PUT; at_path := Param "id"; attempt := update_user;
       rescue := update_user_rescue |};
    {| verb := GET; at_path := Literal "search"; attempt := search_users;
       rescue := search_users_rescue |} ].

(** The module binds [supabase] to the client that [utils/supabase]
    exports. *)
Definition supabase {S : Type} (exported : Client S) : Binding S := Bound exported.

Definition api {S : Type} (exported : Client S) (req : Request Body) (s : S)
  : option (Response * S * list Call) :=
  serve (supabase exported) router req s.

End Users.

(** ** routes/auth.js *)

Module Auth.

(** The properties [register] reads of the body, as the strings the API
    documents them to be; [None] is a missing property. *)
Record Body := {
  email : option string;
  password : option string;
  name : option string;
  diving_experience : option string;
  location : option string
}.

(** [router.post('/register')] *)
Definition register (_ : gmap string string) (req : Request Body) : Handler Response :=
  let b := body req in
  if negb (JS.truthy_str (email b)) || negb (JS.truthy_str (password b))
     || negb (JS.truthy_str (name b)) then
    Done (respond 400 [("error", JStr "Bad Request");
                       ("message", JStr "이메일, 비밀번호, 이름은 필수입니다.");
                       ("required_fields", JArr [JStr "email"; JStr "password"; JStr "name"])])
  else
    let email := default "" (email b) in
    let password := default "" (password b) in
    let name := default "" (name b) in
    if (JS.length password <? 6)%nat then
      Done (respond 400 [("error", JStr "Bad Request");
                         ("message", JStr "비밀번호는 최소 6자리 이상이어야 합니다.")])
    else
      let* signed := AuthSignUp email password name
                       (JS.str_or (diving_experience b) "beginner") in
      match error signed with
      | Some authError =>
          if JS.includes (message authError) "already registered" then
            Done (respond 409 [("error", JStr "Conflict");
                               ("message", JStr "이미 가입된 이메일입니다.");
                               ("code", JStr "EMAIL_ALREADY_EXISTS")])
          else
            Done (respond 400 [("error", JStr "Auth Error");
                               ("message", JStr (message authError))])
      | None =>
          match data signed with
          | Some {| user := Some authUser; session := session |} =>
              let* inserted :=
                UsersInsert [("id", JStr (auth_id authUser));
                             ("email", JStr email);
                             ("name", JStr name);
                             ("diving_experience",
                              JStr (JS.str_or (diving_experience b) "beginner"));
                             ("location", js_or (of_str (location b)) JNull);
                             ("total_dives", JInt 0);
                             ("created_at", JStr (clock req))] in
              match error inserted with
              | Some userError =>
                  Done (respond 500 [("error", JStr "Database Error");
                                     ("message", JStr "사용자 정보 저장 중 오류가 발생했습니다.");
                                     ("details", JStr (message userError))])
              | None =>
                  match data inserted with
                  | None => Raise
                  | Some userData =>
                      Done {| status := 201;
                              payload := literal [
                                ("message", Some (JStr "회원가입 성공! 🎉"));
                                ("user", Some (literal [
                                   ("id", obj_get userData "id");
                                   ("email", obj_get userData "email");
                                   ("name", obj_get userData "name");
                                   ("diving_experience", obj_get userData "diving_experience");
                                   ("location", obj_get userData "location");
                                   ("created_at", obj_get userData "created_at")]));
                                ("auth", Some (literal [
                                   ("access_token", JStr ∘ access_token <$> session);
                                   ("refresh_token", JStr ∘ refresh_token <$> session);
                                   ("expires_at", JInt ∘ expires_at <$> session)]));
                                ("note", Some (JStr "이메일 인증이 필요할 수 있습니다."))] |}
                  end
              end
          | _ => Raise
          end
      end.

Definition register_rescue : Response :=
  respond 500 [("error", JStr "Internal Server Error");
               ("message", JStr "회원가입 처리 중 오류가 발생했습니다.")].

(** [router.get('/')] *)
Definition home (_ : gmap string string) (_ : Request Body) : Handler Response :=
  Done (json [("message", JStr "🔐 Authentication API (Supabase 연동)");
              ("available_endpoints", JObj [
                 ("register", JStr "POST /api/auth/register");
                 ("login", JStr "POST /api/auth/login");
                 ("logout", JStr "POST /api/auth/logout");
                 ("profile", JStr "GET /api/auth/profile");
                 ("refresh", JStr "POST /api/auth/refresh")]);
              ("note", JStr "실제 Supabase 데이터베이스와 연동됨")]).

(** The routes of the module up to the registration; [login], [logout]
    and [profile], registered after it on paths of their own, are not part
    of this development. *)
Definition router : list (Route Body) :=
  [ {| verb := GET; at_path := Root; attempt := home; rescue := unhandled |};
    {| verb := POST; at_path := Literal "register"; attempt := register;
       rescue := register_rescue |} ].

Definition supabase {S : Type} (exported : Client S) : Binding S := Bound exported.

Definition api {S : Type} (exported : Client S) (req : Request Body) (s : S)
  : option (Response * S * list Call) :=
  serve (supabase exported) router req s.

End Auth.

(** ** routes/dives.js *)

Module Dives.

Record Coordinates := {
  lat : option Qc;
  lng : option Qc
}.

(** The properties [create] reads of the body: the texts and numbers of the
    data model where the handler computes with them, any JSON value where it
    only passes them on. *)
Record Body := {
  dive_type : option string;
  location_name : option string;
  country : option JSON;
  coordinates : option Coordinates;
  dive_date : option string;
  duration_minutes : option JSON;
  max_depth : option Qc;
  average_depth : option JSON;
  water_temperature : option JSON;
  visibility_meters : option JSON;
  weather : option JSON;
  current_strength : option JSON;
  equipment : option JSON;
  air_consumption : option JSON;
  safety_buddy_name : option JSON;
  marine_life : option JSON;
  notes : option JSON;
  rating : option JSON
}.

(** Truthiness of a number that may be missing. *)
Definition truthy_num (x : option Qc) : bool :=
  match x with
  | Some q => negb (bool_decide (q = 0%Qc))
  | None => false
  end.

Definition requiredFields : list string :=
  ["dive_type"; "location_name"; "dive_date"; "max_depth"].

(** [!req.body[field]] for the required fields. *)
Definition missing (b : Body) (field : string) : bool :=
  if String.eqb field "dive_type" then negb (JS.truthy_str (dive_type b))
  else if String.eqb field "location_name" then negb (JS.truthy_str (location_name b))
  else if String.eqb field "dive_date" then negb (JS.truthy_str (dive_date b))
  else negb (truthy_num (max_depth b)).

(** The token of the [Authorization] header. *)
Definition bearer {B : Type} (req : Request B) : option string :=
  (fun h => JS.replace h "Bearer " "") <$> authorization req.

(** [!currentUser?.deepest_dive || max_depth > currentUser.deepest_dive] *)
Definition deeper (max_depth : Qc) (currentUser : option (option Qc)) : bool :=
  match currentUser with
  | Some (Some deepest_dive) =>
      bool_decide (deepest_dive = 0%Qc) || bool_decide (deepest_dive < max_depth)%Qc
  | _ => true
  end.

(** [router.post('/create')] *)
Definition create (_ : gmap string string) (req : Request Body) : Handler Response :=
  let b := body req in
  let token := bearer req in
  if negb (JS.truthy_str token) then
    Done (respond 401 [("error", JStr "Unauthorized");
                       ("message", JStr "인증 토큰이 필요합니다.")])
  else
    let* got := AuthGetUser (default "" token) in
    match data got with
    | None => Raise
    | Some user =>
        match error got, user with
        | None, Some user =>
            let missingFields := filter (missing b) requiredFields in
            if (0 <? List.length missingFields)%nat then
              Done (respond 400 [("error", JStr "Bad Request");
                                 ("message", JStr "필수 필드가 누락되었습니다.");
                                 ("missing_fields", JArr (map JStr missingFields));
                                 ("required_fields", JArr (map JStr requiredFields))])
            else
              let dive_type := default "" (dive_type b) in
              let max_depth := default 0%Qc (max_depth b) in
              if negb (bool_decide (dive_type ∈ ["freediving"; "scuba"])) then
                Done (respond 400 [("error", JStr "Bad Request");
                                   ("message", JStr "다이빙 타입은 freediving 또는 scuba여야 합니다.");
                                   ("allowed_types", JArr [JStr "freediving"; JStr "scuba"])])
              else
                let* counted := DivesCountByUser (auth_id user) in
                let currentDiveCount := count counted in
                let nextDiveNumber := default 0 currentDiveCount + 1 in
                let coordinatesPoint :=
                  match coordinates b with
                  | Some {| lat := Some lat; lng := Some lng |} =>
                      if truthy_num (Some lat) && truthy_num (Some lng)
                      then Some (lng, lat) else None
                  | _ => None
                  end in
                let* inserted :=
                  DivesInsert
                    {| nd_user_id := auth_id user;
                       nd_dive_type := dive_type;
                       nd_dive_number := nextDiveNumber;
                       nd_location_name := default "" (location_name b);
                       nd_country := js_or (country b) JNull;
                       nd_coordinates := coordinatesPoint;
                       nd_dive_date := default "" (dive_date b);
                       nd_duration_minutes := js_or (duration_minutes b) JNull;
                       nd_max_depth := max_depth;
                       nd_average_depth := js_or (average_depth b) JNull;
                       nd_water_temperature := js_or (water_temperature b) JNull;
                       nd_visibility_meters := js_or (visibility_meters b) JNull;
                       nd_weather := js_or (weather b) JNull;
                       nd_current_strength := js_or (current_strength b) JNull;
                       nd_equipment := js_or (equipment b) (JObj []);
                       nd_air_consumption :=
                         if String.eqb dive_type "scuba" then air_consumption b else Some JNull;
                       nd_safety_buddy_name := js_or (safety_buddy_name b) JNull;
                       nd_marine_life := js_or (marine_life b) (JArr []);
                       nd_notes := js_or (notes b) (JStr "");
                       nd_rating := js_or (rating b) JNull;
                       nd_photos_count := 0;
                       nd_videos_count := 0 |} in
                match error inserted with
                | Some diveError =>
                    Done (respond 500 [("error", JStr "Database Error");
                                       ("message", JStr "다이빙 기록 생성 중 오류가 발생했습니다.");
                                       ("details", JStr (message diveError))])
                | None =>
                    let newDive := data inserted in
                    let* current := UsersSelectDeepest (auth_id user) in
                    let currentUser := data current in
                    let updateData :=
                      {| su_total_dives := nextDiveNumber;
                         su_updated_at := clock req;
                         su_deepest_dive :=
                           if deeper max_depth currentUser then Some max_depth else None |} in
                    let* _ := UsersUpdateStats updateData (auth_id user) in
                    Done (respond 201 [
                      ("message", JStr "다이빙 기록 생성 성공! 🎉");
                      ("dive", default JNull newDive);
                      ("stats", JObj [
                         ("dive_number", JInt nextDiveNumber);
                         ("is_new_depth_record",
                          JBool (bool_decide (su_deepest_dive updateData = Some max_depth)))])])
                end
        | _, _ =>
            Done (respond 401 [("error", JStr "Unauthorized");
                               ("message", JStr "유효하지 않은 토큰입니다.")])
        end
    end.

Definition create_rescue : Response :=
  respond 500 [("error", JStr "Internal Server Error");
               ("message", JStr "다이빙 기록 생성 중 오류가 발생했습니다.")].

(** A row of the list or of the detail answer: the dive with the name and
    the experience of its diver beside it. *)
Definition with_diver (dive : Obj) : Obj :=
  let users := obj_get dive "users" in
  obj_set (obj_set dive "user_name" (js_or (opt_prop users "name") (JStr "알 수 없음")))
          "user_experience" (js_or (opt_prop users "diving_experience") (JStr "unknown")).

(** [router.get('/list')] *)
Definition list_dives (_ : gmap string string) (req : Request Body) : Handler Response :=
  let page := JS.parseInt_or (query req !! "page") 1 in
  let limit := JS.parseInt_or (query req !! "limit") 10 in
  let user_id := query req !! "user_id" in
  let dive_type := query req !! "type" in
  let location := query req !! "location" in
  let startIndex := (page - 1) * limit in
  let* r := DivesSelectPage startIndex (startIndex + limit - 1)
              (if JS.truthy_str user_id then user_id else None)
              (if JS.truthy_str dive_type then dive_type else None)
              (if JS.truthy_str location
               then Some ("%" ++ default "" location ++ "%")%string else None) in
  match error r with
  | Some _ =>
      Done (respond 500 [("error", JStr "Database Error");
                         ("message", JStr "다이빙 목록 조회 중 오류가 발생했습니다.")])
  | None =>
      match data r with
      | None => Raise
      | Some dives =>
          let formattedDives := map (fun dive => JObj (with_diver dive)) dives in
          Done (json [("message", JStr "다이빙 로그 목록 조회 성공");
                      ("data", JArr formattedDives);
                      ("pagination",
                       Users.pagination "total_dives" page limit startIndex (count r));
                      ("filters", JObj [("user_id", js_or (of_str user_id) JNull);
                                        ("dive_type", js_or (of_str dive_type) JNull);
                                        ("location", js_or (of_str location) JNull)])])
      end
  end.

Definition list_dives_rescue : Response :=
  respond 500 [("error", JStr "Internal Server Error");
               ("message", JStr "다이빙 목록 조회 중 오류가 발생했습니다.")].

(** [router.get('/:id')] *)
Definition get_dive (params : gmap string string) (req : Request Body) : Handler Response :=
  let diveId := default "undefined" (params !! "id") in
  if negb (JS.test uuidRegex diveId) then
    Done (respond 400 [("error", JStr "Bad Request");
                       ("message", JStr "유효하지 않은 다이빙 ID 형식입니다.")])
  else
    let* r := DivesSelectById diveId in
    match error r with
    | Some e =>
        if bool_decide (code e = Some "PGRST116") then
          Done (respond 404 [("error", JStr "Not Found");
                             ("message", JStr "다이빙 기록을 찾을 수 없습니다.")])
        else
          Done (respond 500 [("error", JStr "Database Error");
                             ("message", JStr "다이빙 상세 조회 중 오류가 발생했습니다.")])
    | None =>
        match data r with
        | None => Raise
        | Some dive =>
            let users := obj_get dive "users" in
            let formattedDive :=
              obj_set (with_diver dive) "user_location" (js_or (opt_prop users "location") JNull) in
            Done (json [("message", JStr "다이빙 상세 정보 조회 성공");
                        ("dive", JObj (obj_delete formattedDive "users"))])
        end
    end.

Definition get_dive_rescue : Response :=
  respond 500 [("error", JStr "Internal Server Error");
               ("message", JStr "다이빙 상세 조회 중 오류가 발생했습니다.")].

(** [router.get('/')] *)
Definition home (_ : gmap string string) (_ : Request Body) : Handler Response :=
  Done (json [("message", JStr "🌊 Dives API");
              ("available_endpoints", JObj [
                 ("list", JStr "GET /api/dives (다이빙 로그 목록)");
                 ("create", JStr "POST /api/dives (새 다이빙 기록)");
                 ("detail", JStr "GET /api/dives/:id (특정 다이빙 조회)");
                 ("update", JStr "PUT /api/dives/:id (다이빙 기록 수정)");
                 ("delete", JStr "DELETE /api/dives/:id (다이빙 기록 삭제)");
                 ("stats", JStr "GET /api/dives/stats (다이빙 통계)");
                 ("spots", JStr "GET /api/dives/spots (다이빙 포인트)");
                 ("photos", JStr "GET/POST /api/dives/:id/photos (사진 관리)")])]).

(** The router the module exports, in the order of registration. *)
Definition router : list (Route Body) :=
  [ {| verb := GET; at_path := Root; attempt := home; rescue := unhandled |};
    {| verb := POST; at_path := Literal "create"; attempt := create; rescue := create_rescue |};
    {| verb := GET; at_path := Literal "list"; attempt := list_dives;
       rescue := list_dives_rescue |};
    {| verb := GET; at_path := Param "id"; attempt := get_dive; rescue := get_dive_rescue |} ].

(** The module requires [express] only: no declaration binds [supabase],
    whatever [utils/supabase] exports. *)
Definition supabase {S : Type} (exported : Client S) : Binding S := Unbound.

Definition api {S : Type} (exported : Client S) (req : Request Body) (s : S)
  : option (Response * S * list Call) :=
  serve (supabase exported) router req s.

End Dives.

(** ** The identifier format in the words of the specification

    Five groups of hexadecimal digits, of 8, 4, 4, 4 and 12 characters,
    separated by hyphens; the version nibble, first of the third group, is 1
    to 5 and the variant nibble, first of the fourth group, is 8, 9, a
    or b. *)

Definition nibble (c : ascii) : option N :=
  if JS.between 48 57 c then Some (JS.code c - 48)%N
  else if JS.between 97 102 c then Some (JS.code c - 87)%N
  else if JS.between 65 70 c then Some (JS.code c - 55)%N
  else None.

Definition in_range (lo hi : N) (c : ascii) : bool :=
  match nibble c with
  | Some n => ((lo <=? n) && (n <=? hi))%N
  | None => false
  end.

Definition hex_group (n : nat) (g : string) : Prop :=
  String.length g = n /\ forall c, c ∈ list_ascii_of_string g -> is_Some (nibble c).

Definition leading_nibble (lo hi : N) (g : string) : Prop :=
  exists c n, String.get 0 g = Some c /\ nibble c = Some n /\ (lo <= n <= hi)%N.

Definition uuid_text (s : string) : Prop :=
  exists g1 g2 g3 g4 g5 : string,
    s = (g1 ++ "-" ++ g2 ++ "-" ++ g3 ++ "-" ++ g4 ++ "-" ++ g5)%string
    /\ hex_group 8 g1 /\ hex_group 4 g2 /\ hex_group 4 g3 /\ hex_group 4 g4
    /\ hex_group 12 g5
    /\ leading_nibble 1 5 g3 /\ leading_nibble 8 11 g4.

(** A handler that answers with the given status without awaiting any
    query. *)
Definition answers_at_once (h : Handler Response) (code : Z) : Prop :=
  exists r, h = Done r /\ status r = code.

(** A handler whose first step is to await the query [e]. *)
Definition first_asks {X : Type} (h : Handler Response) (e : supabaseE X) : Prop :=
  exists k, h = Ask e k.

(** The request for one entity: [GET] or [PUT] on [/:id]. *)
Definition at_id (id : string) : gmap string string := {[ "id" := id ]}.

(** The objects a run wrote to the [users] table through
    [update(...).eq('id', ...)]. *)
Definition written (calls : list Call) : list Obj :=
  omap (fun c => match c with
                 | Called (UsersUpdateById changes _) => Some changes
                 | Called _ => None
                 end) calls.

(** Sample inputs. *)
Definition sample_id : string := "123e4567-e89b-12d3-a456-426614174000".

Definition sample_update : Request Users.Body :=
  {| method := PUT; path := [sample_id]; query := ∅; authorization := None;
     body := {[ "name" := JStr "x" ]}; clock := "2024-05-01T00:00:00.000Z" |}.

(** ** Providers to run the routes against *)

Definition nothing {A : Type} : Reply A := {| data := None; error := None; count := None |}.

Definition found {A : Type} (a : A) : Reply A :=
  {| data := Some a; error := None; count := None |}.

Definition failed {A : Type} (e : PgError) : Reply A :=
  {| data := None; error := Some e; count := None |}.

(** A provider that resolves every query to neither data nor error. *)
Definition idle_reply {X : Type} (e : supabaseE X) : X :=
  match e in supabaseE X return X with
  | UsersSelectPage _ _ _ _ => nothing
  | UsersSelectById _ => nothing
  | DivesSelectStats _ => nothing
  | UsersUpdateById _ _ => nothing
  | UsersSearch _ _ _ _ => nothing
  | AuthSignUp _ _ _ _ => nothing
  | UsersInsert _ => nothing
  | AuthGetUser _ => nothing
  | DivesCountByUser _ => nothing
  | DivesInsert _ => nothing
  | UsersSelectDeepest _ => nothing
  | UsersUpdateStats _ _ => nothing
  | DivesSelectPage _ _ _ _ _ => nothing
  | DivesSelectById _ => nothing
  end.

Definition idle : Client unit :=
  {| perform := fun X e s => (Some (idle_reply e), s) |}.

(** A provider that finds the user's row and fails on the statistics
    query. *)
Definition stats_down : Client unit :=
  {| perform := fun X e s =>
       (Some (match e in supabaseE X return X with
              | UsersSelectById id => found [("id", JStr id); ("name", JStr "Kim")]
              | DivesSelectStats _ =>
                  failed {| code := Some "57014"; message := "canceling statement" |}
              | e' => idle_reply e'
              end), s) |}.

Definition sample_get : Request Users.Body :=
  {| method := GET; path := [sample_id]; query := ∅; authorization := None;
     body := ∅; clock := "2024-05-01T00:00:00.000Z" |}.

Definition sample_page : Request Users.Body :=
  {| method := GET; path := ["list"]; query := {[ "page" := "2"; "limit" := "5" ]};
     authorization := None; body := ∅; clock := "2024-05-01T00:00:00.000Z" |}.

Definition sample_search : Request Users.Body :=
  {| method := GET; path := ["search"]; query := {[ "q" := "ab" ]};
     authorization := None; body := ∅; clock := "2024-05-01T00:00:00.000Z" |}.

(** A string is numeric at its start when, after leading white space and
    an optional sign, it begins with a decimal digit. *)
Definition numeric_start (s : string) : bool :=
  match JS.trimStart (list_ascii_of_string s) with
  | c :: r =>
      if JS.is_char 45 c || JS.is_char 43 c
      then match r with c' :: _ => JS.between 48 57 c' | [] => false end
      else JS.between 48 57 c
  | [] => false
  end.

(** ** The value of a list parameter in the words of the specification

    The default when the parameter is absent, is not numeric ([parseInt]
    gives NaN) or is zero; the parsed integer otherwise. *)
Inductive taken (d : Z) : option string -> Z -> Prop :=
| taken_absent : taken d None d
| taken_not_numeric s : JS.parseInt s = None -> taken d (Some s) d
| taken_zero s : JS.parseInt s = Some 0 -> taken d (Some s) d
| taken_parsed s n : JS.parseInt s = Some n -> n <> 0 -> taken d (Some s) n.

(** A provider that signs the user up without opening a session (the
    address is still to be confirmed) and stores the row it is given. *)
Definition unconfirmed : Client unit :=
  {| perform := fun X e s =>
       (Some (match e in supabaseE X return X with
              | AuthSignUp email _ _ _ =>
                  found {| user := Some {| auth_id := "u-1"; auth_email := email |};
                           session := None |}
              | UsersInsert row => found row
              | e' => idle_reply e'
              end), s) |}.

Definition sample_register : Request Auth.Body :=
  {| method := POST; path := ["register"]; query := ∅; authorization := None;
     body := {| Auth.email := Some "kim@example.com"; Auth.password := Some "secret1";
                Auth.name := Some "Kim"; Auth.diving_experience := None;
                Auth.location := None |};
     clock := "2024-05-01T00:00:00.000Z" |}.

(** ** An in-memory provider for the dive routes

    The tokens it accepts, the dives inserted so far and, for each user,
    the counters of the [users] row. *)

Record Profile := {
  total_dives : Z;
  deepest_dive : option Qc
}.

Record Store := {
  tokens : gmap string AuthUser;
  dives : list NewDive;
  profiles : gmap string Profile
}.

Definition kim : AuthUser := {| auth_id := "u-1"; auth_email := "kim@example.com" |}.

(** The dives of a user on record. *)
Definition dives_of (user_id : string) (s : Store) : list NewDive :=
  filter (fun d => String.eqb (nd_user_id d) user_id) (dives s).

Definition dive_json (row : NewDive) : JSON :=
  JObj [("user_id", JStr (nd_user_id row));
        ("dive_type", JStr (nd_dive_type row));
        ("dive_number", JInt (nd_dive_number row));
        ("location_name", JStr (nd_location_name row));
        ("dive_date", JStr (nd_dive_date row));
        ("max_depth", JNum (nd_max_depth row))].

Definition memory : Client Store :=
  {| perform := fun X e =>
       match e in supabaseE X return Store -> option X * Store with
       | AuthGetUser token => fun s =>
           (Some {| data := Some (tokens s !! token);
                    error := match tokens s !! token with
                             | Some _ => None
                             | None => Some {| code := None; message := "invalid JWT" |}
                             end;
                    count := None |}, s)
       | DivesCountByUser user_id => fun s =>
           (Some {| data := None; error := None;
                    count := Some (Z.of_nat (List.length (dives_of user_id s))) |}, s)
       | DivesInsert row => fun s =>
           (Some (found (dive_json row)),
            {| tokens := tokens s; dives := dives s ++ [row]; profiles := profiles s |})
       | UsersSelectDeepest id => fun s =>
           (Some match profiles s !! id with
                 | Some p => found (deepest_dive p)
                 | None => failed {| code := Some "PGRST116"; message := "no rows" |}
                 end, s)
       | UsersUpdateStats changes id => fun s =>
           (Some nothing,
            {| tokens := tokens s; dives := dives s;
               profiles :=
                 alter (fun p => {| total_dives := su_total_dives changes;
                                    deepest_dive :=
                                      match su_deepest_dive changes with
                                      | Some d => Some d
                                      | None => deepest_dive p
                                      end |}) id (profiles s) |})
       | e' => fun s => (Some (idle_reply e'), s)
       end |}.

(** A user who has registered and not dived yet. *)
Definition fresh : Store :=
  {| tokens := {[ "t-kim" := kim ]};
     dives := [];
     profiles := {[ "u-1" := {| total_dives := 0; deepest_dive := None |} ]} |}.

Definition dive_body (type : string) (depth : Qc) : Dives.Body :=
  {| Dives.dive_type := Some type; Dives.location_name := Some "Jeju";
     Dives.country := None; Dives.coordinates := None;
     Dives.dive_date := Some "2024-05-01"; Dives.duration_minutes := None;
     Dives.max_depth := Some depth; Dives.average_depth := None;
     Dives.water_temperature := None; Dives.visibility_meters := None;
     Dives.weather := None; Dives.current_strength := None; Dives.equipment := None;
     Dives.air_consumption := None; Dives.safety_buddy_name := None;
     Dives.marine_life := None; Dives.notes := None; Dives.rating := None |}.

Definition sample_create (depth : Qc) : Request Dives.Body :=
  {| method := POST; path := ["create"]; query := ∅;
     authorization := Some "Bearer t-kim"; body := dive_body "scuba" depth;
     clock := "2024-05-01T00:00:00.000Z" |}.

Definition sample_dive_page : Request Dives.Body :=
  {| method := GET; path := ["list"]; query := {[ "page" := "2"; "limit" := "5" ]};
     authorization := None; body := dive_body "" 0%Qc;
     clock := "2024-05-01T00:00:00.000Z" |}.

(** Requests served one after the other: the answers and the state the
    provider is left in. *)
Fixpoint in_turn {S B : Type} (b : Binding S) (routes : list (Route B))
  (reqs : list (Request B)) (s : S) : option (list Response * S) :=
  match reqs with
  | [] => Some ([], s)
  | req :: rest =>
      '(a, s', _) ← serve b routes req s;
      '(answers, s'') ← in_turn b routes rest s';
      Some (a :: answers, s'')
  end.

(** The deepest dive on record once a dive of the given depth is added to
    a record [m], as the creation route updates it. *)
Definition deepest_after (m : option Qc) (depth : Qc) : option Qc :=
  if Dives.deeper depth (Some m) then Some depth else m.

(** [x] is the greatest of the depths [l]. *)
Definition greatest (x : Qc) (l : list Qc) : Prop :=
  x ∈ l /\ forall d, d ∈ l -> (d <= x)%Qc.

(** The record [m] of a user whose dives so far had the depths [seen]:
    nothing before the first dive, the greatest depth after. *)
Definition record_of (seen : list Qc) (m : option Qc) : Prop :=
  match seen with
  | [] => m = None
  | _ => exists x, m = Some x /\ x <> 0%Qc /\ greatest x seen
  end.

Definition stat (r : Response) (k : string) : option JSON := opt_prop (field r "stats") k.

(** ** routes/auth.js: login, logout and profile

    The sign-in and the sign-out go through the same client; [Table] is a
    query of the kind the other routes issue. *)

Module Account.

Record Identity := {
  who_id : string;
  who_email : string;
  who_metadata : option JSON   (* user_metadata *)
}.

Record Tokens := {
  tok_access : string;
  tok_refresh : string;
  tok_expires_at : Z;
  tok_expires_in : Z
}.

Record SignedIn := {
  who : option Identity;
  opened : option Tokens   (* session *)
}.

Inductive authE : Type -> Type :=
| SignInWithPassword (email password : string) : authE (Reply SignedIn)
| SignOut : authE (Reply unit)
| Table {X : Type} (e : supabaseE X) : authE X.

(** The body of a handler that signs in or out: as [Handler], over the
    queries above. *)
Inductive Flow (R : Type) : Type :=
| Answer (r : R)
| Fail
| Await {X : Type} (e : authE X) (k : X -> Flow R).
Arguments Answer {R} _.
Arguments Fail {R}.
Arguments Await {R X} _ _.

Inductive Sent :=
| Awaited {X : Type} (e : authE X).

Record Session (S : Type) := {
  resolve : forall X, authE X -> S -> option X * S
}.
Arguments resolve {S} _ {X} _ _.

(** Running a flow against a client: the answer ([None] when an exception
    reached the [catch]), the state of the provider, the queries awaited. *)
Fixpoint play {S R : Type} (c : Session S) (f : Flow R) (s : S)
  : option R * S * list Sent :=
  match f with
  | Answer r => (Some r, s, [])
  | Fail => (None, s, [])
  | Await e k =>
      match resolve c e s with
      | (Some x, s') =>
          let '(r, s'', sent) := play c (k x) s' in (r, s'', Awaited e :: sent)
      | (None, s') => (None, s', [Awaited e])
      end
  end.

(** [router.post('/login')] *)
Definition login (req : Request Auth.Body) : Flow Response :=
  let b := body req in
  if negb (JS.truthy_str (Auth.email b)) || negb (JS.truthy_str (Auth.password b)) then
    Answer (respond 400 [("error", JStr "Bad Request");
                         ("message", JStr "이메일과 비밀번호를 입력해주세요.");
                         ("required_fields", JArr [JStr "email"; JStr "password"])])
  else
    Await (SignInWithPassword (default "" (Auth.email b)) (default "" (Auth.password b)))
      (fun signed =>
         match error signed with
         | Some _ =>
             Answer (respond 401 [("error", JStr "Unauthorized");
                                  ("message", JStr "이메일 또는 비밀번호가 올바르지 않습니다.");
                                  ("code", JStr "INVALID_CREDENTIALS")])
         | None =>
             match data signed with
             | Some {| who := Some authUser; opened := session |} =>
                 Await (Table (UsersSelectById (who_id authUser)))
                   (fun found_row =>
                      let user :=
                        match data found_row with
                        | Some userData => JObj userData
                        | None =>
                            JObj [("id", JStr (who_id authUser));
                                  ("email", JStr (who_email authUser));
                                  ("name", js_or (opt_prop (who_metadata authUser) "name")
                                                 (JStr "이름 없음"))]
                        end in
                      match session with
                      | Some session =>
                          Answer (json [("message", JStr "로그인 성공! 🎉");
                                        ("user", user);
                                        ("auth", JObj [
                                           ("access_token", JStr (tok_access session));
                                           ("refresh_token", JStr (tok_refresh session));
                                           ("expires_at", JInt (tok_expires_at session));
                                           ("expires_in", JInt (tok_expires_in session))])])
                      | None => Fail
                      end)
             | _ => Fail
             end
         end).

Definition login_rescue : Response :=
  respond 500 [("error", JStr "Internal Server Error");
               ("message", JStr "로그인 처리 중 오류가 발생했습니다.")].

Definition logged_out : Response :=
  json [("message", JStr "로그아웃 성공! 👋");
        ("note", JStr "클라이언트에서 토큰을 삭제해주세요.")].

(** [router.post('/logout')] *)
Definition logout (req : Request Auth.Body) : Flow Response :=
  let token := Dives.bearer req in
  if JS.truthy_str token then Await SignOut (fun _ => Answer logged_out)
  else Answer logged_out.

Definition logout_rescue : Response :=
  respond 500 [("error", JStr "Internal Server Error");
               ("message", JStr "로그아웃 처리 중 오류가 발생했습니다.")].

(** [router.get('/profile')] *)
Definition profile (_ : gmap string string) (req : Request Auth.Body) : Handler Response :=
  let token := Dives.bearer req in
  if negb (JS.truthy_str token) then
    Done (respond 401 [("error", JStr "Unauthorized");
                       ("message", JStr "인증 토큰이 필요합니다.");
                       ("note", JStr "Authorization 헤더에 Bearer 토큰을 포함해주세요.")])
  else
    let* got := AuthGetUser (default "" token) in
    match data got with
    | None => Raise
    | Some user =>
        match error got, user with
        | None, Some user =>
            let* row := UsersSelectById (auth_id user) in
            match error row with
            | Some _ =>
                Done (respond 404 [("error", JStr "Not Found");
                                   ("message", JStr "사용자 정보를 찾을 수 없습니다.")])
            | None =>
                Done (json [("message", JStr "프로필 조회 성공");
                            ("user", from_option JObj JNull (data row))])
            end
        | _, _ =>
            Done (respond 401 [("error", JStr "Unauthorized");
                               ("message", JStr "유효하지 않은 토큰입니다.")])
        end
    end.

Definition profile_rescue : Response :=
  respond 500 [("error", JStr "Internal Server Error");
               ("message", JStr "프로필 조회 중 오류가 발생했습니다.")].

End Account.

(** ** utils/supabase.js *)

Module Config.

(** The variables of the environment the module reads. *)
Record Env := {
  SUPABASE_URL : option string;
  SUPABASE_ANON_KEY : option string;
  SUPABASE_SERVICE_KEY : option string
}.

Record Settings := {
  supabaseUrl : string;
  supabaseAnonKey : string;
  supabaseServiceKey : string
}.

(** Loading the module: [None] is [process.exit(1)]. *)
Definition load (env : Env) : option Settings :=
  if negb (JS.truthy_str (SUPABASE_URL env))
     || negb (JS.truthy_str (SUPABASE_ANON_KEY env))
     || negb (JS.truthy_str (SUPABASE_SERVICE_KEY env))
  then None
  else Some {| supabaseUrl := default "" (SUPABASE_URL env);
               supabaseAnonKey := default "" (SUPABASE_ANON_KEY env);
               supabaseServiceKey := default "" (SUPABASE_SERVICE_KEY env) |}.

(** [testConnection]: an error thrown in the [try] is caught and gives
    [false]. *)
Definition testConnection (cfg : Settings) : bool :=
  if negb (String.prefix "https://" (supabaseUrl cfg))
     || negb (JS.includes (supabaseUrl cfg) ".supabase.co")
  then false
  else if (JS.length (supabaseAnonKey cfg) <? 100)%nat
          || (JS.length (supabaseServiceKey cfg) <? 100)%nat
  then false
  else true.

End Config.

(** ** server.js: the origins allowed across sites *)

Module Server.

(** [s.split(',')] *)
Fixpoint split (sep : ascii) (s : string) : list string :=
  match s with
  | EmptyString => [EmptyString]
  | String c r =>
      if Ascii.eqb c sep then EmptyString :: split sep r
      else match split sep r with
           | piece :: pieces => String c piece :: pieces
           | [] => [String c EmptyString]
           end
  end.

(** [l.join(',')] *)
Fixpoint join (sep : ascii) (l : list string) : string :=
  match l with
  | [] => EmptyString
  | [piece] => piece
  | piece :: rest => (piece ++ String sep (join sep rest))%string
  end.

(** [process.env.ALLOWED_ORIGINS ? process.env.ALLOWED_ORIGINS.split(',') : [...]] *)
Definition allowedOrigins (ALLOWED_ORIGINS : option string) : list string :=
  if JS.truthy_str ALLOWED_ORIGINS then split "," (default "" ALLOWED_ORIGINS)
  else ["http://localhost:3000"; "http://frontend:3000"].

End Server.

(** ** Notions the properties below are stated with *)

(** The dives of a type among the rows of the statistics query. *)
Definition of_type (t : string) (diveStats : list DiveStat) : list DiveStat :=
  filter (fun d => String.eqb (ds_dive_type d) t) diveStats.

(** The property of an object that is itself a property of the answer. *)
Definition inner (r : Response) (k k' : string) : option JSON := opt_prop (field r k) k'.

(** A handler that has answered or thrown: it awaits nothing more. *)
Definition settled (h : Handler Response) : Prop :=
  h = Raise \/ exists r, h = Done r.

Definition comma_free (s : string) : Prop := ~ (","%char ∈ list_ascii_of_string s).

Definition sample_token_request (header : option string) (b : Dives.Body)
  : Request Dives.Body :=
  {| method := POST; path := ["create"]; query := ∅; authorization := header;
     body := b; clock := "2024-05-01T00:00:00.000Z" |}.

(** A text property that is present and not empty. *)
Definition present (x : option string) : Prop := exists s, x = Some s /\ s <> "".

(** A request whose [Authorization] header yields the token [t]. *)
Definition carries {B : Type} (req : Request B) (t : string) : Prop :=
  Dives.bearer req = Some t /\ t <> "".

(** A body with the four required properties. *)
Definition complete (b : Dives.Body) : Prop :=
  present (Dives.dive_type b) /\ present (Dives.location_name b)
  /\ present (Dives.dive_date b)
  /\ exists depth, Dives.max_depth b = Some depth /\ depth <> 0%Qc.

(** A body that passes the checks of the creation route, with its type and
    depth. *)
Definition accepted (b : Dives.Body) (type : string) (depth : Qc) : Prop :=
  complete b /\ Dives.dive_type b = Some type
  /\ (type = "freediving" \/ type = "scuba") /\ Dives.max_depth b = Some depth.

(** A required property of the creation body that is missing, empty or
    zero. *)
Definition lacking (b : Dives.Body) (f : string) : Prop :=
  (f = "dive_type" /\ (Dives.dive_type b = None \/ Dives.dive_type b = Some ""))
  \/ (f = "location_name"
      /\ (Dives.location_name b = None \/ Dives.location_name b = Some ""))
  \/ (f = "dive_date" /\ (Dives.dive_date b = None \/ Dives.dive_date b = Some ""))
  \/ (f = "max_depth" /\ (Dives.max_depth b = None \/ Dives.max_depth b = Some 0%Qc)).

(** A registration body that passes the checks of the route: the three
    required texts, and a password of six units or more. *)
Definition registrable (b : Auth.Body) (e p n : string) : Prop :=
  Auth.email b = Some e /\ Auth.password b = Some p /\ Auth.name b = Some n
  /\ e <> "" /\ p <> "" /\ n <> "" /\ (6 <= JS.length p)%nat.

(** A registration for which the provider reports a failed sign-up. *)
Definition sample_auth_error : PgError :=
  {| code := Some "weak_password"; message := "Password is too weak" |}.

(** A login body with both texts. *)
Definition credentials (b : Auth.Body) (e p : string) : Prop :=
  Auth.email b = Some e /\ Auth.password b = Some p /\ e <> "" /\ p <> "".

(** The object [login] answers with under [auth]. *)
Definition auth_of (t : Account.Tokens) : JSON :=
  JObj [("access_token", JStr (Account.tok_access t));
        ("refresh_token", JStr (Account.tok_refresh t));
        ("expires_at", JInt (Account.tok_expires_at t));
        ("expires_in", JInt (Account.tok_expires_in t))].

Definition sample_login : Request Auth.Body :=
  {| method := POST; path := ["login"]; query := ∅; authorization := None;
     body := {| Auth.email := Some "kim@example.com"; Auth.password := Some "secret1";
                Auth.name := None; Auth.diving_experience := None;
                Auth.location := None |};
     clock := "2024-05-01T00:00:00.000Z" |}.

Definition sample_identity : Account.Identity :=
  {| Account.who_id := "u-1"; Account.who_email := "kim@example.com";
     Account.who_metadata := Some (JObj [("name", JStr "")]) |}.

Definition sample_tokens : Account.Tokens :=
  {| Account.tok_access := "a"; Account.tok_refresh := "r";
     Account.tok_expires_at := 1714521600; Account.tok_expires_in := 3600 |}.

(** A request to the account routes with the given header. *)
Definition sample_account_request (header : option string) : Request Auth.Body :=
  {| method := GET; path := ["profile"]; query := ∅; authorization := header;
     body := body sample_login; clock := "2024-05-01T00:00:00.000Z" |}.

(** A text of ASCII white space only (tab to carriage return, and the
    space); the empty text is one. *)
Definition blank (s : string) : Prop :=
  Forall (fun c => JS.between 9 13 c || JS.between 32 32 c = true) (list_ascii_of_string s).

(** A search request with the given term. *)
Definition sample_search_for (q : string) : Request Users.Body :=
  {| method := GET; path := ["search"]; query := {[ "q" := q ]}; authorization := None;
     body := ∅; clock := "2024-05-01T00:00:00.000Z" |}.

(** A request for a page of the users list. *)
Definition sample_users_page (page limit : string) : Request Users.Body :=
  {| method := GET; path := ["list"]; query := {[ "page" := page; "limit" := limit ]};
     authorization := None; body := ∅; clock := "2024-05-01T00:00:00.000Z" |}.

(** A [GET] on a path of one segment below the mount point of the dives. *)
Definition get_at (segment : string) (q : gmap string string) : Request Dives.Body :=
  {| method := GET; path := [segment]; query := q; authorization := None;
     body := dive_body "" 0%Qc; clock := "2024-05-01T00:00:00.000Z" |}.

(** A variable of the environment that is unset or empty. *)
Definition unset (x : option string) : Prop := x = None \/ x = Some "".

Definition sample_key : string :=
  "sample-key-0123456789-0123456789-0123456789-0123456789-0123456789-0123456789-0123456789-0123456789-0123456789".

Definition sample_env : Config.Env :=
  {| Config.SUPABASE_URL := Some "https://abc.supabase.co";
     Config.SUPABASE_ANON_KEY := Some sample_key;
     Config.SUPABASE_SERVICE_KEY := Some sample_key |}.


(** * Properties *)

(** ** The primitives on examples *)

Example parseInt_examples :
  JS.parseInt "25" = Some 25 /\ JS.parseInt " 7px" = Some 7 /\ JS.parseInt "-3" = Some (-3)
  /\ JS.parseInt "abc" = None /\ JS.parseInt "0x1A" = Some 26 /\ JS.parseInt "0x" = None
  /\ JS.parseInt "undefined" = None /\ JS.parseInt "0" = Some 0.
Proof. repeat apply conj; reflexivity. Qed.

Example string_examples :
  JS.trim "  a " = "a" /\ JS.trim " ab　" = "ab"
  /\ JS.replace "Bearer abc" "Bearer " "" = "abc"
  /\ JS.includes "User already registered" "already registered" = true
  /\ JS.length "다이빙" = 3%nat.
Proof. repeat apply conj; reflexivity. Qed.

(** ** Running handlers *)

Lemma run_Done {S R : Type} (b : Binding S) (r : R) (s : S) :
  run b (Done r) s = (Some r, s, []).
Proof. reflexivity. Qed.

Lemma run_Unbound {S R : Type} (h : Handler R) (s : S) :
  exists res, run Unbound h s = (res, s, []).
Proof. destruct h; simpl; eauto. Qed.

(** ** The identifier pattern *)

Section Uuid.

Lemma hex_class c :
  JS.term_matches true (JS.Class [("0", "9"); ("a", "f")]%char) c
  = bool_decide (is_Some (nibble c)).
Proof. destruct c as [[] [] [] [] [] [] [] []]; reflexivity. Qed.

Lemma dash_lit c : JS.term_matches true (JS.Lit "-") c = true <-> c = "-"%char.
Proof.
  destruct c as [[] [] [] [] [] [] [] []]; vm_compute; split; congruence.
Qed.

Lemma version_class c :
  JS.term_matches true (JS.Class [("1", "5")]%char) c = in_range 1 5 c.
Proof. destruct c as [[] [] [] [] [] [] [] []]; reflexivity. Qed.

Lemma variant_class c :
  JS.term_matches true (JS.Class [("8", "8"); ("9", "9"); ("a", "a"); ("b", "b")]%char) c
  = in_range 8 11 c.
Proof. destruct c as [[] [] [] [] [] [] [] []]; reflexivity. Qed.

Lemma in_range_hex lo hi c : in_range lo hi c = true -> is_Some (nibble c).
Proof. unfold in_range. destruct (nibble c); [eauto | discriminate]. Qed.

Lemma in_range_spec lo hi c :
  in_range lo hi c = true <-> exists n, nibble c = Some n /\ (lo <= n <= hi)%N.
Proof.
  unfold in_range. split.
  - destruct (nibble c) as [n|]; [|discriminate]. intros H.
    apply andb_prop in H as [H1%N.leb_le H2%N.leb_le]. by exists n.
  - intros (n & -> & H1 & H2). apply andb_true_intro. by split; apply N.leb_le.
Qed.

Lemma matches_Forall2 i ts s :
  JS.matches i ts s = true
  <-> Forall2 (fun t c => JS.term_matches i t c = true) ts (list_ascii_of_string s).
Proof.
  revert s. induction ts as [|t ts IH]; intros [|c s]; simpl.
  - split; [constructor | done].
  - split; [discriminate | inversion 1].
  - split; [discriminate | inversion 1].
  - rewrite andb_true_iff, IH. split.
    + intros [? ?]. by constructor.
    + inversion 1; subst. done.
Qed.

Lemma length_succ g n :
  String.length g = S n -> exists c g', g = String c g' /\ String.length g' = n.
Proof. destruct g as [|c g']; [discriminate|]. simpl. intros [= H]. eauto. Qed.

Lemma length_zero g : String.length g = 0%nat -> g = "".
Proof. by destruct g. Qed.

Ltac explode_group H :=
  let Hlen := fresh "Hlen" in
  let Hall := fresh "Hall" in
  destruct H as [Hlen Hall];
  repeat (apply length_succ in Hlen as (? & ? & -> & Hlen));
  apply length_zero in Hlen as ->.

Lemma matches_cons i t ts c s :
  JS.matches i (t :: ts) (String c s) = JS.term_matches i t c && JS.matches i ts s.
Proof. reflexivity. Qed.

Ltac peel H :=
  repeat match type of H with
    | JS.matches true (?t :: ?ts) ?s = true =>
        destruct s as [|? s]; [by simpl in H|];
        rewrite matches_cons in H;
        let Hc := fresh "Hc" in
        apply andb_prop in H as [Hc H];
        first [ rewrite hex_class in Hc; apply bool_decide_eq_true in Hc
              | rewrite version_class in Hc
              | rewrite variant_class in Hc
              | apply dash_lit in Hc; subst ]
    end.

Lemma uuid_test_sound s : JS.test uuidRegex s = true -> uuid_text s.
Proof.
  unfold JS.test. intros H.
  exists (substring 0 8 s), (substring 9 4 s), (substring 14 4 s), (substring 19 4 s),
         (substring 24 12 s).
  change (JS.matches true (JS.expand (JS.pattern uuidRegex)) s = true) in H.
  let ts := eval cbv in (JS.expand (JS.pattern uuidRegex)) in
    change (JS.matches true ts s = true) in H.
  peel H. destruct s; [|by simpl in H]. clear H.
  repeat apply conj; try reflexivity;
    try (intros x Hx; cbn in Hx;
         repeat (apply elem_of_cons in Hx as [->|Hx]; [by eauto using in_range_hex|]);
         by apply elem_of_nil in Hx).
  - apply in_range_spec in Hc11 as (n & ? & ?). by eexists _, n.
  - apply in_range_spec in Hc15 as (n & ? & ?). by eexists _, n.
Qed.

Lemma uuid_test_complete s : uuid_text s -> JS.test uuidRegex s = true.
Proof.
  intros (g1 & g2 & g3 & g4 & g5 & -> & H1 & H2 & H3 & H4 & H5 & Hv & Hw).
  explode_group H1. explode_group H2. explode_group H3. explode_group H4.
  explode_group H5.
  destruct Hv as (v & n & [= <-] & Hn & Hrange).
  destruct Hw as (w & m & [= <-] & Hm & Hrange').
  unfold JS.test. apply matches_Forall2.
  cbn [list_ascii_of_string String.append].
  change (JS.ignoreCase uuidRegex) with true.
  let ts := eval cbv in (JS.expand (JS.pattern uuidRegex)) in
    change (JS.expand (JS.pattern uuidRegex)) with ts.
  repeat (apply List.Forall2_cons); try apply List.Forall2_nil;
    try (by apply dash_lit);
    try (rewrite hex_class; apply bool_decide_eq_true;
         (apply Hall + apply Hall0 + apply Hall1 + apply Hall2 + apply Hall3);
         cbn; solve [repeat constructor]).
  - rewrite version_class. apply in_range_spec. eauto.
  - rewrite variant_class. apply in_range_spec. eauto.
Qed.

Lemma uuid_test_spec s : JS.test uuidRegex s = true <-> uuid_text s.
Proof. split; [apply uuid_test_sound | apply uuid_test_complete]. Qed.

End Uuid.

(** ** Objects *)

Lemma obj_get_set (o : Obj) k f v :
  obj_get (obj_set o f v) k = if String.eqb f k then Some v else obj_get o k.
Proof.
  induction o as [|[k' v'] o IH]; simpl.
  - by destruct (String.eqb_spec f k).
  - destruct (String.eqb_spec k' f) as [->|Hne]; simpl.
    + by destruct (String.eqb_spec f k).
    + rewrite IH. destruct (String.eqb_spec k' k) as [->|]; [|done].
      by destruct (String.eqb_spec f k) as [->|].
Qed.

Lemma obj_get_keys (o : Obj) k : is_Some (obj_get o k) <-> k ∈ Object_keys o.
Proof.
  unfold Object_keys. induction o as [|[k' v'] o IH]; simpl.
  - split; [by intros [? ?] | by intros ?%elem_of_nil].
  - rewrite elem_of_cons, <- IH. destruct (String.eqb_spec k' k) as [->|Hne].
    + split; [by left | by eauto].
    + split; [by right | by intros [-> | ?]].
Qed.

Lemma keys_set (o : Obj) f v k :
  k ∈ Object_keys (obj_set o f v) <-> k ∈ Object_keys o \/ k = f.
Proof.
  rewrite <- !obj_get_keys, obj_get_set.
  destruct (String.eqb_spec f k) as [->|Hne].
  - split; [by right | by eauto].
  - split; [by left | by intros [? | ->]].
Qed.

Section Filter.

Context (updateData : gmap string JSON).

Lemma foldl_keep_get fields acc k :
  obj_get (foldl (Users.keep updateData) acc fields) k =
    match (if bool_decide (k ∈ fields) then updateData !! k else None) with
    | Some v => Some v
    | None => obj_get acc k
    end.
Proof.
  revert acc. induction fields as [|f fields IH]; intros acc; cbn [foldl]; [done|].
  rewrite IH. unfold Users.keep.
  destruct (decide (k = f)) as [->|Hne].
  - rewrite (bool_decide_eq_true_2 (f ∈ f :: fields)) by constructor.
    case_bool_decide.
    + destruct (updateData !! f) eqn:E; [done|]. done.
    + destruct (updateData !! f) eqn:E; [|done]. rewrite obj_get_set.
      by rewrite String.eqb_refl.
  - assert (bool_decide (k ∈ f :: fields) = bool_decide (k ∈ fields)) as ->.
    { apply bool_decide_ext. rewrite elem_of_cons. naive_solver. }
    destruct (if bool_decide (k ∈ fields) then updateData !! k else None); [done|].
    destruct (updateData !! f); [|done]. rewrite obj_get_set.
    by destruct (String.eqb_spec f k) as [->|].
Qed.

Lemma filter_fields_get k :
  obj_get (Users.filter_fields updateData) k =
    if bool_decide (k ∈ Users.allowedFields) then updateData !! k else None.
Proof.
  unfold Users.filter_fields. rewrite foldl_keep_get. simpl.
  by destruct (if bool_decide _ then _ else _).
Qed.

Lemma filter_fields_keys k :
  k ∈ Object_keys (Users.filter_fields updateData)
  <-> k ∈ Users.allowedFields /\ is_Some (updateData !! k).
Proof.
  rewrite <- obj_get_keys, filter_fields_get. case_bool_decide.
  - naive_solver.
  - split; [by intros [? ?] | naive_solver].
Qed.

Lemma filter_fields_nil :
  Users.filter_fields updateData = []
  <-> forall k, k ∈ Users.allowedFields -> updateData !! k = None.
Proof.
  split.
  - intros E k Hk. destruct (updateData !! k) eqn:Ek; [|done].
    assert (k ∈ Object_keys (Users.filter_fields updateData)) as Hin
      by (apply filter_fields_keys; eauto).
    rewrite E in Hin. by apply elem_of_nil in Hin.
  - intros H. destruct (Users.filter_fields updateData) as [|[k v] o] eqn:E; [done|].
    assert (k ∈ Object_keys (Users.filter_fields updateData)) as Hin
      by (rewrite E; constructor).
    apply filter_fields_keys in Hin as [Hk [? Hv]]. rewrite (H k Hk) in Hv. done.
Qed.

End Filter.

(** ** Identifier validation *)

Lemma test_not_uuid id : ~ uuid_text id -> JS.test uuidRegex id = false.
Proof.
  intros H. destruct (JS.test uuidRegex id) eqn:E; [|done].
  by apply uuid_test_spec in E.
Qed.

(** C4. On the three routes that take an identifier, a string of the UUID
    format (five hexadecimal groups of 8, 4, 4, 4 and 12 characters, version
    nibble 1 to 5, variant nibble 8, 9, a or b) passes the check, the route
    going on to its provider query (for the update, once the body holds an
    allowed field), and any other string is answered 400 by a handler that
    awaits no query; the sample identifier passes and "not-a-uuid" does not. *)
Theorem identifier_validation :
  (forall id : string,
      (JS.test uuidRegex id = true <-> uuid_text id)
      /\ (uuid_text id ->
          (forall req, first_asks (Users.get_user (at_id id) req) (UsersSelectById id))
          /\ (forall req, Users.filter_fields (body req) <> [] ->
                exists changes,
                  first_asks (Users.update_user (at_id id) req) (UsersUpdateById changes id))
          /\ (forall req, first_asks (Dives.get_dive (at_id id) req) (DivesSelectById id)))
      /\ (~ uuid_text id ->
          (forall req, answers_at_once (Users.get_user (at_id id) req) 400)
          /\ (forall req, answers_at_once (Users.update_user (at_id id) req) 400)
          /\ (forall req, answers_at_once (Dives.get_dive (at_id id) req) 400)))
  /\ uuid_text "123e4567-e89b-12d3-a456-426614174000"
  /\ ~ uuid_text "not-a-uuid".
Proof.
  split; [intros id; split; [apply uuid_test_spec | split] | split].
  - intros Hid%uuid_test_spec.
    unfold first_asks, Users.get_user, Users.update_user, Dives.get_dive, at_id.
    repeat split; intros req; rewrite lookup_singleton_eq; simpl; rewrite Hid; simpl.
    + eauto.
    + intros Hne. destruct (Users.filter_fields (body req)); [done|]. simpl. eauto.
    + eauto.
  - intros Hid%test_not_uuid.
    unfold answers_at_once, Users.get_user, Users.update_user, Dives.get_dive, at_id.
    repeat split; intros req; rewrite lookup_singleton_eq; simpl; rewrite Hid; simpl; eauto.
  - by apply uuid_test_spec.
  - intros H%uuid_test_spec. discriminate H.
Qed.

Lemma identifier_validation_witness :
  uuid_text "123e4567-e89b-12d3-a456-426614174000"
  /\ forall req,
       first_asks (Users.get_user (at_id "123e4567-e89b-12d3-a456-426614174000") req)
                  (UsersSelectById "123e4567-e89b-12d3-a456-426614174000").
Proof.
  pose proof (proj1 identifier_validation "123e4567-e89b-12d3-a456-426614174000")
    as (Hiff & Hpass & _).
  assert (uuid_text "123e4567-e89b-12d3-a456-426614174000") as Hid
    by (apply Hiff; reflexivity).
  split; [exact Hid | exact (proj1 (Hpass Hid))].
Defined.

(** ** The update of a profile *)

Lemma update_user_valid id req :
  uuid_text id ->
  Users.update_user (at_id id) req =
    if Nat.eqb (List.length (Object_keys (Users.filter_fields (body req)))) 0 then
      Done (respond 400 [("error", JStr "Bad Request");
                         ("message", JStr "수정할 데이터가 없습니다.");
                         ("allowed_fields", JArr (map JStr Users.allowedFields))])
    else
      Ask (UsersUpdateById
             (obj_set (Users.filter_fields (body req)) "updated_at" (JStr (clock req))) id)
          (fun r =>
             match error r with
             | Some e =>
                 if bool_decide (code e = Some "PGRST116") then
                   Done (respond 404 [("error", JStr "Not Found");
                                      ("message", JStr "사용자를 찾을 수 없습니다.")])
                 else
                   Done (respond 500 [("error", JStr "Database Error");
                                      ("message", JStr "프로필 수정 중 오류가 발생했습니다.")])
             | None =>
                 Done (json [("message", JStr "프로필 수정 성공! ✨");
                             ("user", default JNull (data r));
                             ("updated_fields",
                              JArr (map JStr (Object_keys
                                (obj_set (Users.filter_fields (body req)) "updated_at"
                                         (JStr (clock req))))))])
             end).
Proof.
  intros Hid%uuid_test_spec. unfold Users.update_user, at_id.
  rewrite lookup_singleton_eq. simpl. by rewrite Hid.
Qed.



Lemma run_single {S R X : Type} (c : Client S) (e : supabaseE X) (k : X -> Handler R)
  (s : S) :
  (forall x, (exists r, k x = Done r) \/ k x = Raise) ->
  (run (Bound c) (Ask e k) s).2 = [Called e].
Proof.
  intros Hleaf. simpl. destruct (perform c e s) as [[x|] s']; [|done].
  by destruct (Hleaf x) as [[r ->] | ->].
Qed.

Lemma sent_keys (updateData : gmap string JSON) (ts : JSON) k :
  k ∈ Object_keys (obj_set (Users.filter_fields updateData) "updated_at" ts) ->
  (k ∈ Users.allowedFields) \/ k = "updated_at".
Proof.
  intros [Hk | Hk]%keys_set; [left | by right].
  by apply filter_fields_keys in Hk as [? _].
Qed.

Lemma identity_not_allowed : ("id" ∉ Users.allowedFields) /\ ("email" ∉ Users.allowedFields).
Proof. split; eapply bool_decide_eq_false_1; reflexivity. Qed.

(** C9. Whatever the request and however the provider answers, the update
    route issues at most one query, the update of the row of the identifier
    in the path, and the object it writes never carries [id] or [email]: its
    properties are on the allow-list or [updated_at]. *)
Theorem update_never_writes_identity
  {S : Type} (c : Client S) (s : S) (params : gmap string string)
  (req : Request Users.Body) :
  let calls := (run (Bound c) (Users.update_user params req) s).2 in
  (calls = []
   \/ exists changes,
        calls = [Called (UsersUpdateById changes (default "undefined" (params !! "id")))])
  /\ forall changes,
       changes ∈ written calls ->
       ("id" ∉ Object_keys changes)
       /\ ("email" ∉ Object_keys changes)
       /\ (forall k, k ∈ Object_keys changes ->
                     (k ∈ Users.allowedFields) \/ k = "updated_at").
Proof.
  intros calls. subst calls. unfold Users.update_user.
  destruct (negb (JS.test uuidRegex (default "undefined" (params !! "id")))).
  { split; [by left | by intros ? ?%elem_of_nil]. }
  destruct (Nat.eqb _ 0).
  { split; [by left | by intros ? ?%elem_of_nil]. }
  rewrite run_single.
  2:{ intros r. left. destruct (error r) as [e|]; [case_bool_decide|]; eauto. }
  split; [right; by eexists|].
  intros changes ->%list_elem_of_singleton.
  destruct identity_not_allowed as [Hid Hemail].
  split; [|split].
  - by intros [? | ?]%sent_keys.
  - by intros [? | ?]%sent_keys.
  - apply sent_keys.
Qed.

Lemma update_never_writes_identity_witness :
  written (run (Bound idle) (Users.update_user (at_id sample_id) sample_update) tt).2
  = [[("name", JStr "x"); ("updated_at", JStr "2024-05-01T00:00:00.000Z")]]
  /\ ("id" ∉ Object_keys [("name", JStr "x"); ("updated_at", JStr "2024-05-01T00:00:00.000Z")]).
Proof.
  assert (written (run (Bound idle) (Users.update_user (at_id sample_id) sample_update) tt).2
          = [[("name", JStr "x"); ("updated_at", JStr "2024-05-01T00:00:00.000Z")]]) as E
    by (vm_compute; reflexivity).
  split; [exact E|].
  apply (proj2 (update_never_writes_identity idle tt (at_id sample_id) sample_update)).
  rewrite E. constructor.
Defined.

(** ** The list routes *)

Lemma ceil_div_spec a b : 0 < b -> (JS.ceil_div a b - 1) * b < a <= JS.ceil_div a b * b.
Proof.
  intros Hb. unfold JS.ceil_div.
  pose proof (Z.mul_div_le (- a) b Hb). pose proof (Z.mul_succ_div_gt (- a) b Hb). nia.
Qed.

(** C7. The ordering the users list asks the provider for is [total_dives]
    descending when [sort] is "total_dives", [name] ascending when it is
    "name", and [created_at] descending for any other value and when the
    parameter is absent; the status of the answer depends on the provider's
    reply alone (200, or 500 on a provider error), never on [sort]. *)
Theorem sort_selects_ordering (req : Request Users.Body) :
  exists from to col asc k,
    Users.list_users ∅ req = Ask (UsersSelectPage from to col asc) k
    /\ (query req !! "sort" = Some "total_dives" -> (col, asc) = ("total_dives", false))
    /\ (query req !! "sort" = Some "name" -> (col, asc) = ("name", true))
    /\ (query req !! "sort" <> Some "total_dives" -> query req !! "sort" <> Some "name" ->
        (col, asc) = ("created_at", false))
    /\ (forall reply, exists r,
          k reply = Done r
          /\ status r = match error reply with Some _ => 500 | None => 200 end).
Proof.
  unfold Users.list_users. do 5 eexists. split; [reflexivity|].
  repeat apply conj.
  - by intros ->.
  - by intros ->.
  - intros H1 H2. unfold Users.ordering, JS.str_or, JS.truthy_str.
    destruct (query req !! "sort") as [sort|]; [|done]. simpl.
    destruct (String.eqb_spec sort "") as [->|]; simpl; [done|].
    destruct (String.eqb_spec sort "total_dives") as [->|]; [done|].
    by destruct (String.eqb_spec sort "name") as [->|].
  - intros reply. destruct (error reply); eauto.
Qed.

Lemma sort_selects_ordering_witness :
  exists from to k,
    Users.list_users ∅ {| method := GET; path := ["list"];
                          query := {[ "sort" := "depth" ]};
                          authorization := None; body := ∅; clock := "" |}
    = Ask (UsersSelectPage from to "created_at" false) k.
Proof.
  destruct (sort_selects_ordering
              {| method := GET; path := ["list"]; query := {[ "sort" := "depth" ]};
                 authorization := None; body := ∅; clock := "" |})
    as (from & to & col & asc & k & E & _ & _ & Hdefault & _).
  assert ((col, asc) = ("created_at", false)) as [= -> ->] by (apply Hdefault; by vm_compute).
  by exists from, to, k.
Defined.



Lemma parseInt_or_taken (x : option string) (d : Z) : taken d x (JS.parseInt_or x d).
Proof.
  unfold JS.parseInt_or. destruct x as [s|]; simpl.
  - destruct (JS.parseInt s) as [n|] eqn:E; [|by constructor].
    destruct (Z.eqb_spec n 0) as [->|]; by econstructor.
  - change (JS.parseInt "undefined") with (@None Z). constructor.
Qed.

Lemma not_a_digit c : JS.between 48 57 c = false -> JS.digit_value 10 c = None.
Proof. destruct c as [[] [] [] [] [] [] [] []]; vm_compute; congruence. Qed.

Lemma not_a_digit_not_zero c : JS.between 48 57 c = false -> JS.is_char 48 c = false.
Proof. destruct c as [[] [] [] [] [] [] [] []]; vm_compute; congruence. Qed.

Lemma digits_not_numeric l :
  match l with c :: _ => JS.between 48 57 c | [] => false end = false ->
  (let '(radix, l') :=
     match l with
     | c0 :: cx :: r =>
         if JS.is_char 48 c0 && (JS.is_char 120 cx || JS.is_char 88 cx)
         then (16%N, r) else (10%N, l)
     | _ => (10%N, l)
     end in JS.digits radix None l') = None.
Proof.
  destruct l as [|c0 [|cx r]]; simpl; [done| |].
  - intros H. by rewrite (not_a_digit _ H).
  - intros H. rewrite (not_a_digit_not_zero _ H). simpl. by rewrite (not_a_digit _ H).
Qed.

(** A string that is not numeric at its start parses to NaN. *)
Lemma parseInt_not_numeric s : numeric_start s = false -> JS.parseInt s = None.
Proof.
  unfold numeric_start, JS.parseInt.
  destruct (JS.trimStart (list_ascii_of_string s)) as [|c r]; [done|].
  destruct (JS.is_char 45 c) eqn:Eminus; simpl.
  - intros H. pose proof (digits_not_numeric r H) as Hd.
    destruct (match r with
              | c0 :: cx :: r0 =>
                  if JS.is_char 48 c0 && (JS.is_char 120 cx || JS.is_char 88 cx)
                  then (16%N, r0) else (10%N, r)
              | _ => (10%N, r)
              end) as [radix l']. by rewrite Hd.
  - destruct (JS.is_char 43 c) eqn:Eplus; simpl.
    + intros H. pose proof (digits_not_numeric r H) as Hd.
      destruct (match r with
                | c0 :: cx :: r0 =>
                    if JS.is_char 48 c0 && (JS.is_char 120 cx || JS.is_char 88 cx)
                    then (16%N, r0) else (10%N, r)
                | _ => (10%N, r)
                end) as [radix l']. by rewrite Hd.
    + intros H. pose proof (digits_not_numeric (c :: r) H) as Hd.
      destruct (match c :: r with
                | c0 :: cx :: r0 =>
                    if JS.is_char 48 c0 && (JS.is_char 120 cx || JS.is_char 88 cx)
                    then (16%N, r0) else (10%N, c :: r)
                | _ => (10%N, c :: r)
                end) as [radix l']. by rewrite Hd.
Qed.

Lemma taken_functional d x a b : taken d x a -> taken d x b -> a = b.
Proof.
  intros Ha Hb. destruct Ha; inversion Hb; subst; congruence.
Qed.

Lemma parseInt_or_not_numeric s d : numeric_start s = false -> JS.parseInt_or (Some s) d = d.
Proof. intros H%parseInt_not_numeric. unfold JS.parseInt_or. simpl. by rewrite H. Qed.



Example list_defaults_examples :
  JS.parseInt_or None 1 = 1 /\ JS.parseInt_or (Some "abc") 1 = 1
  /\ JS.parseInt_or (Some "0") 1 = 1 /\ JS.parseInt_or (Some "") 10 = 10
  /\ JS.parseInt_or (Some "3") 1 = 3 /\ JS.parseInt_or (Some "-2") 10 = -2
  /\ JS.parseInt_or (Some "25 rows") 10 = 25.
Proof. repeat apply conj; reflexivity. Qed.

(** ** The search route *)

Lemma search_dispatch (req : Request Users.Body) :
  method req = GET -> path req = ["search"] ->
  dispatch Users.router req
  = Some (Users.get_user (at_id "search") req, Users.get_user_rescue).
Proof.
  intros Hm Hp. unfold dispatch, Users.router. simpl. rewrite Hm, Hp. reflexivity.
Qed.

(** The handler registered for the search, were it given the request. *)
Lemma search_handler_proceeds :
  first_asks (Users.search_users ∅ sample_search) (UsersSearch "%ab%" None None 20).
Proof. unfold first_asks. vm_compute. eauto. Qed.

(** C5 (the code departs from the claim). [GET /api/users/search], with
    [q=ab] as with any query string, is taken by the route [/:id], registered
    before [/search], with "search" as the identifier: the answer is 400 and
    the provider is not asked anything. *)
Theorem search_is_shadowed {S : Type} (c : Client S) (s : S)
  (q : gmap string string) (auth : option string) (b : Users.Body) (now : string) :
  let invalid_id :=
    respond 400 [("error", JStr "Bad Request");
                 ("message", JStr "유효하지 않은 사용자 ID 형식입니다.");
                 ("example", JStr "/api/users/123e4567-e89b-12d3-a456-426614174000")] in
  Users.api c sample_search s = Some (invalid_id, s, [])
  /\ Users.api c {| method := GET; path := ["search"]; query := q; authorization := auth;
                    body := b; clock := now |} s
     = Some (invalid_id, s, []).
Proof. split; reflexivity. Qed.

(** ** Provider errors *)

Lemma run_rejected {S R : Type} (c : Client S) {X : Type} (e : supabaseE X)
  (k : X -> Handler R) (s s' : S) :
  perform c e s = (None, s') -> run (Bound c) (Ask e k) s = (None, s', [Called e]).
Proof. intros E. simpl. by rewrite E. Qed.

Lemma run_resolved {S R : Type} (c : Client S) {X : Type} (e : supabaseE X)
  (k : X -> Handler R) (s s' : S) (x : X) (r : R) :
  perform c e s = (Some x, s') -> k x = Done r ->
  run (Bound c) (Ask e k) s = (Some r, s', [Called e]).
Proof. intros E Ek. simpl. by rewrite E, Ek. Qed.




(** ** Registration *)

(** Against C8 as the specification states it: the provider signs the
    user up without a session, the answer is 201 and its [auth] object has
    none of the three fields. *)
Lemma register_without_session :
  exists r,
    Auth.api unconfirmed sample_register tt
    = Some (r, tt, [Called (AuthSignUp "kim@example.com" "secret1" "Kim" "beginner");
                    Called (UsersInsert [("id", JStr "u-1");
                                         ("email", JStr "kim@example.com");
                                         ("name", JStr "Kim");
                                         ("diving_experience", JStr "beginner");
                                         ("location", JNull);
                                         ("total_dives", JInt 0);
                                         ("created_at", JStr "2024-05-01T00:00:00.000Z")])])
    /\ status r = 201
    /\ field r "auth" = Some (JObj [])
    /\ opt_prop (field r "auth") "access_token" = None.
Proof. eexists. split; [vm_compute; reflexivity|]. repeat split. Qed.

Lemma truthy_str_Some s : s <> "" -> JS.truthy_str (Some s) = true.
Proof. intros H. simpl. by destruct (String.eqb_spec s ""). Qed.

(** C8, amended. A body without [email], [password] or [name] is answered
    400; so is a password of fewer than 6 characters; an error of the sign-up
    whose message contains "already registered" is answered 409 with the
    code EMAIL_ALREADY_EXISTS; when the sign-up and the insertion of the
    row succeed the answer is 201 with the fields of the created row and an
    [auth] object that carries [access_token], [refresh_token] and
    [expires_at] of the session the provider returned, and none of them when
    it returned no session. *)
Theorem register_outcomes (req : Request Auth.Body) :
  let b := body req in
  ((Auth.email b = None \/ Auth.password b = None \/ Auth.name b = None) ->
   answers_at_once (Auth.register ∅ req) 400)
  /\ (forall e p n,
        Auth.email b = Some e -> Auth.password b = Some p -> Auth.name b = Some n ->
        e <> "" -> p <> "" -> n <> "" ->
        ((JS.length p < 6)%nat -> answers_at_once (Auth.register ∅ req) 400)
        /\ ((6 <= JS.length p)%nat ->
            exists level k,
              Auth.register ∅ req = Ask (AuthSignUp e p n level) k
              /\ (forall reply err,
                    error reply = Some err ->
                    JS.includes (message err) "already registered" = true ->
                    exists r, k reply = Done r /\ status r = 409
                              /\ field r "code" = Some (JStr "EMAIL_ALREADY_EXISTS"))
              /\ (forall reply u sess,
                    error reply = None ->
                    data reply = Some {| user := Some u; session := sess |} ->
                    exists row k',
                      k reply = Ask (UsersInsert row) k'
                      /\ obj_get row "id" = Some (JStr (auth_id u))
                      /\ obj_get row "email" = Some (JStr e)
                      /\ obj_get row "name" = Some (JStr n)
                      /\ obj_get row "total_dives" = Some (JInt 0)
                      /\ forall inserted userData,
                           error inserted = None -> data inserted = Some userData ->
                           exists r,
                             k' inserted = Done r /\ status r = 201
                             /\ field r "user"
                                = Some (literal [("id", obj_get userData "id");
                                                 ("email", obj_get userData "email");
                                                 ("name", obj_get userData "name");
                                                 ("diving_experience",
                                                  obj_get userData "diving_experience");
                                                 ("location", obj_get userData "location");
                                                 ("created_at",
                                                  obj_get userData "created_at")])
                             /\ field r "auth"
                                = Some (match sess with
                                        | Some ss =>
                                            JObj [("access_token", JStr (access_token ss));
                                                  ("refresh_token", JStr (refresh_token ss));
                                                  ("expires_at", JInt (expires_at ss))]
                                        | None => JObj []
                                        end)))).
Proof.
  intros b. subst b. split.
  - unfold Auth.register, answers_at_once.
    intros [-> | [-> | ->]]; simpl; rewrite ?orb_true_r; simpl; eauto.
  - intros e p n Ee Ep En He Hp Hn. unfold Auth.register, answers_at_once.
    rewrite Ee, Ep, En, !truthy_str_Some by done. simpl. split.
    + intros Hlen. apply Nat.ltb_lt in Hlen. rewrite Hlen. eauto.
    + intros Hlen. apply Nat.ltb_ge in Hlen. rewrite Hlen.
      do 2 eexists. split; [reflexivity|]. split.
      * intros reply err -> ->. eexists. repeat split.
      * intros reply u sess -> ->. do 2 eexists. split; [reflexivity|].
        repeat (split; [reflexivity|]).
        intros inserted userData -> ->. eexists. split; [reflexivity|].
        split; [reflexivity|]. split; [reflexivity|]. by destruct sess.
Qed.

Lemma register_outcomes_witness :
  answers_at_once
    (Auth.register ∅
       {| method := POST; path := ["register"]; query := ∅; authorization := None;
          body := {| Auth.email := Some "kim@example.com"; Auth.password := None;
                     Auth.name := Some "Kim"; Auth.diving_experience := None;
                     Auth.location := None |};
          clock := "" |}) 400.
Proof.
  apply (proj1 (register_outcomes
    {| method := POST; path := ["register"]; query := ∅; authorization := None;
       body := {| Auth.email := Some "kim@example.com"; Auth.password := None;
                  Auth.name := Some "Kim"; Auth.diving_experience := None;
                  Auth.location := None |};
       clock := "" |})).
  right. left. reflexivity.
Defined.

(** ** Dive creation *)

(** [deeper] is the test of the specification: the new depth exceeds the
    recorded one, or none is recorded (no row, [null], or zero). *)
Lemma deeper_spec (max_depth : Qc) (currentUser : option (option Qc)) :
  Dives.deeper max_depth currentUser = true
  <-> (currentUser = None \/ currentUser = Some None \/ currentUser = Some (Some 0%Qc))
      \/ exists prior, currentUser = Some (Some prior) /\ (prior < max_depth)%Qc.
Proof.
  unfold Dives.deeper. destruct currentUser as [[prior|]|].
  - rewrite orb_true_iff, !bool_decide_eq_true. split.
    + intros [-> | H]; [left; right; by right | right; by exists prior].
    + intros [[H | [H | [= ->]]] | (p & [= ->] & H)]; try done; [by left | by right].
  - split; [intros _; left; right; by left | done].
  - split; [intros _; left; by left | done].
Qed.

(** What the handler of the creation route does with a client at hand:
    the number of the dive is the count the provider reports plus one, the
    same number is written to [total_dives], [deepest_dive] is written when
    [deeper] holds and only then, and the answer reports that. *)
Lemma create_counters (req : Request Dives.Body) (token type place date : string)
  (depth : Qc) :
  Dives.bearer req = Some token -> token <> "" ->
  Dives.dive_type (body req) = Some type -> type = "freediving" \/ type = "scuba" ->
  Dives.location_name (body req) = Some place -> place <> "" ->
  Dives.dive_date (body req) = Some date -> date <> "" ->
  Dives.max_depth (body req) = Some depth -> depth <> 0%Qc ->
  exists k1,
    Dives.create ∅ req = Ask (AuthGetUser token) k1
    /\ forall u, exists k2,
         k1 (found (Some u)) = Ask (DivesCountByUser (auth_id u)) k2
         /\ forall counted, exists row k3,
              k2 counted = Ask (DivesInsert row) k3
              /\ nd_user_id row = auth_id u
              /\ nd_dive_number row = default 0 (count counted) + 1
              /\ nd_max_depth row = depth
              /\ forall inserted, error inserted = None -> exists k4,
                   k3 inserted = Ask (UsersSelectDeepest (auth_id u)) k4
                   /\ forall current, exists k5,
                        k4 current
                        = Ask (UsersUpdateStats
                                 {| su_total_dives := default 0 (count counted) + 1;
                                    su_updated_at := clock req;
                                    su_deepest_dive :=
                                      if Dives.deeper depth (data current)
                                      then Some depth else None |}
                                 (auth_id u)) k5
                        /\ forall updated, exists r,
                             k5 updated = Done r
                             /\ status r = 201
                             /\ stat r "dive_number"
                                = Some (JInt (default 0 (count counted) + 1))
                             /\ stat r "is_new_depth_record"
                                = Some (JBool (Dives.deeper depth (data current))).
Proof.
  intros Htoken Hne Htype Hallowed Hplace Hplace' Hdate Hdate' Hdepth Hdepth'.
  unfold Dives.create. rewrite Htoken, truthy_str_Some by done. simpl.
  eexists. split; [reflexivity|]. intros u. simpl.
  assert (filter (Dives.missing (body req)) Dives.requiredFields = []) as ->.
  { assert (forall f, Dives.missing (body req) f = false) as Hm.
    { intros f. unfold Dives.missing.
      rewrite Htype, Hplace, Hdate, Hdepth, !truthy_str_Some
        by (try done; by destruct Hallowed as [-> | ->]).
      simpl. rewrite bool_decide_eq_false_2 by done. by repeat case_match. }
    unfold Dives.requiredFields. rewrite !filter_cons, filter_nil, !Hm. reflexivity. }
  simpl. rewrite Htype, Hdepth. simpl.
  rewrite (bool_decide_eq_true_2 (type ∈ ["freediving"; "scuba"]))
    by (destruct Hallowed as [-> | ->]; repeat constructor).
  simpl. eexists. split; [reflexivity|]. intros counted.
  do 2 eexists. split; [reflexivity|]. repeat (split; [reflexivity|]).
  intros inserted ->. eexists. split; [reflexivity|]. intros current.
  eexists. split; [reflexivity|]. intros updated. eexists. split; [reflexivity|].
  split; [reflexivity|]. split; [reflexivity|].
  unfold stat, field. destruct (Dives.deeper depth (data current)).
  - by rewrite bool_decide_eq_true_2.
  - by rewrite bool_decide_eq_false_2.
Qed.

(** One creation against the in-memory provider, for a user with [k]
    dives and the record [m]. *)
Lemma memory_create (s : Store) (depth : Qc) (k : nat) (m : option Qc) :
  depth <> 0%Qc ->
  tokens s !! "t-kim" = Some kim ->
  List.length (dives_of "u-1" s) = k ->
  profiles s !! "u-1" = Some {| total_dives := Z.of_nat k; deepest_dive := m |} ->
  exists r s' calls,
    serve (Bound memory) Dives.router (sample_create depth) s = Some (r, s', calls)
    /\ status r = 201
    /\ stat r "dive_number" = Some (JInt (Z.of_nat (S k)))
    /\ stat r "is_new_depth_record" = Some (JBool (Dives.deeper depth (Some m)))
    /\ tokens s' !! "t-kim" = Some kim
    /\ List.length (dives_of "u-1" s') = S k
    /\ profiles s' !! "u-1"
       = Some {| total_dives := Z.of_nat (S k); deepest_dive := deepest_after m depth |}.
Proof.
  intros Hdepth Htoken Hcount Hprofile.
  destruct (create_counters (sample_create depth) "t-kim" "scuba" "Jeju" "2024-05-01" depth)
    as (k1 & E1 & H1); try done; [by right|].
  unfold serve.
  change (dispatch Dives.router (sample_create depth))
    with (Some (Dives.create ∅ (sample_create depth), Dives.create_rescue)).
  rewrite E1. simpl. rewrite Htoken.
  destruct (H1 kim) as (k2 & E2 & H2). unfold found in E2. rewrite E2. simpl.
  rewrite Hcount.
  destruct (H2 {| data := None; error := None; count := Some (Z.of_nat k) |})
    as (row & k3 & E3 & Huser & Hnumber & _ & H3).
  rewrite E3. simpl.
  match goal with
  | |- context [k3 ?x] => destruct (H3 x eq_refl) as (k4 & E4 & H4); rewrite E4
  end.
  simpl. rewrite Hprofile. simpl.
  match goal with
  | |- context [k4 ?x] => destruct (H4 x) as (k5 & E5 & H5); rewrite E5
  end.
  simpl.
  match goal with
  | |- context [k5 ?x] =>
      destruct (H5 x) as (r & E6 & Hstatus & Hnum & Hrecord); rewrite E6
  end.
  simpl in Hnumber, Hnum. cbn [data found] in Hrecord.
  assert (Z.of_nat k + 1 = Z.of_nat (S k)) as Hsucc by lia.
  rewrite Hsucc in Hnumber, Hnum.
  exists r. do 2 eexists. split; [reflexivity|].
  split; [exact Hstatus|]. split; [exact Hnum|]. split; [exact Hrecord|].
  cbn [tokens dives profiles]. split; [exact Htoken|]. split.
  - unfold dives_of in *. cbn [dives]. rewrite filter_app, length_app, Hcount.
    rewrite filter_cons, filter_nil, Huser. simpl. lia.
  - rewrite lookup_alter_eq, Hprofile. simpl. rewrite Hsucc.
    unfold deepest_after, Dives.deeper.
    destruct m as [d|]; [destruct (bool_decide (d = 0%Qc) || bool_decide (d < depth)%Qc)|];
      reflexivity.
Qed.

Lemma record_of_snoc seen m d :
  record_of seen m -> d <> 0%Qc -> record_of (seen ++ [d]) (deepest_after m d).
Proof.
  intros Hm Hd. unfold deepest_after, Dives.deeper.
  destruct seen as [|e seen].
  - simpl in Hm. subst m. simpl. exists d. split; [done|]. split; [done|].
    split; [constructor|]. intros x ->%list_elem_of_singleton. apply Qcle_refl.
  - destruct Hm as (x & -> & Hx & Hin & Hmax).
    rewrite bool_decide_eq_false_2 by done. simpl.
    case_bool_decide as Hlt.
    + exists d. split; [done|]. split; [done|]. split.
      * apply elem_of_cons. right. apply elem_of_app. right. constructor.
      * intros y Hy. change (e :: seen ++ [d])%list with ((e :: seen) ++ [d])%list in Hy.
        apply elem_of_app in Hy as [Hy | ->%list_elem_of_singleton]; [|apply Qcle_refl].
        apply Qclt_le_weak. eapply Qcle_lt_trans; [by apply Hmax | done].
    + exists x. split; [done|]. split; [done|]. split.
      * change (e :: seen ++ [d])%list with ((e :: seen) ++ [d])%list. apply elem_of_app. by left.
      * intros y Hy. change (e :: seen ++ [d])%list with ((e :: seen) ++ [d])%list in Hy.
        apply elem_of_app in Hy as [Hy | ->%list_elem_of_singleton]; [by apply Hmax|].
        by apply Qcnot_lt_le.
Qed.

(** With the client at hand, the creations of a user are numbered from
    the dives on record, [total_dives] follows, and [deepest_dive] is the
    greatest depth so far. *)
Lemma creations_from (depths seen : list Qc) (m : option Qc) (s : Store) :
  Forall (fun d => d <> 0%Qc) depths ->
  tokens s !! "t-kim" = Some kim ->
  List.length (dives_of "u-1" s) = List.length seen ->
  profiles s !! "u-1"
  = Some {| total_dives := Z.of_nat (List.length seen); deepest_dive := m |} ->
  record_of seen m ->
  exists answers s',
    in_turn (Bound memory) Dives.router (map sample_create depths) s = Some (answers, s')
    /\ Forall (fun r => status r = 201) answers
    /\ map (fun r => stat r "dive_number") answers
       = map (fun i => Some (JInt (Z.of_nat (S (List.length seen + i)))))
             (seq 0 (List.length depths))
    /\ exists m',
         profiles s' !! "u-1"
         = Some {| total_dives := Z.of_nat (List.length seen + List.length depths);
                   deepest_dive := m' |}
         /\ record_of (seen ++ depths) m'.
Proof.
  revert seen m s. induction depths as [|d depths IH]; intros seen m s Hnz Htoken Hcount Hp Hm.
  - exists [], s. split; [reflexivity|]. split; [constructor|]. split; [reflexivity|].
    exists m. rewrite app_nil_r, Nat.add_0_r. done.
  - apply Forall_cons in Hnz as [Hd Hnz].
    destruct (memory_create s d (List.length seen) m Hd Htoken Hcount Hp)
      as (r & s1 & calls & Eserve & Hstatus & Hnum & _ & Htoken1 & Hcount1 & Hp1).
    destruct (IH (seen ++ [d])%list (deepest_after m d) s1 Hnz Htoken1) as
      (answers & s' & Eturn & Hall & Hnums & m' & Hp' & Hm').
    { rewrite length_app. simpl. lia. }
    { rewrite length_app. simpl. rewrite Nat.add_1_r. exact Hp1. }
    { by apply record_of_snoc. }
    exists (r :: answers), s'. split.
    { cbn [map in_turn]. rewrite Eserve. simpl. rewrite Eturn. reflexivity. }
    split; [by constructor|]. split.
    { cbn [map List.length seq]. rewrite Hnum, Nat.add_0_r. f_equal.
      rewrite Hnums, <- seq_shift, map_map. apply map_ext. intros i.
      rewrite length_app. simpl. do 3 f_equal. lia. }
    exists m'. rewrite <- app_assoc in Hm'. split; [|exact Hm'].
    rewrite Hp', length_app. simpl. do 3 f_equal. lia.
Qed.

(** For a user who has not dived yet: the dives are numbered 1, 2, ...,
    [total_dives] is their number and [deepest_dive] the greatest of their
    depths. *)
Lemma creations_of_a_fresh_user (depths : list Qc) :
  Forall (fun d => d <> 0%Qc) depths ->
  exists answers s,
    in_turn (Bound memory) Dives.router (map sample_create depths) fresh = Some (answers, s)
    /\ Forall (fun r => status r = 201) answers
    /\ map (fun r => stat r "dive_number") answers
       = map (fun i => Some (JInt (Z.of_nat (S i)))) (seq 0 (List.length depths))
    /\ exists m,
         profiles s !! "u-1"
         = Some {| total_dives := Z.of_nat (List.length depths); deepest_dive := m |}
         /\ record_of depths m.
Proof.
  intros Hnz. by apply (creations_from depths [] None fresh Hnz).
Qed.

Example three_dives_with_the_client_bound :
  exists a1 a2 a3 s,
    in_turn (Bound memory) Dives.router
            [sample_create (Qc_of_Z 12); sample_create (Qc_of_Z 30);
             sample_create (Q2Qc (37 # 2))] fresh
    = Some ([a1; a2; a3], s)
    /\ (status a1, status a2, status a3) = (201, 201, 201)
    /\ stat a1 "dive_number" = Some (JInt 1)
    /\ stat a2 "dive_number" = Some (JInt 2)
    /\ stat a3 "dive_number" = Some (JInt 3)
    /\ stat a1 "is_new_depth_record" = Some (JBool true)
    /\ stat a2 "is_new_depth_record" = Some (JBool true)
    /\ stat a3 "is_new_depth_record" = Some (JBool false)
    /\ map nd_dive_number (dives s) = [1; 2; 3]
    /\ profiles s !! "u-1" = Some {| total_dives := 3; deepest_dive := Some (Qc_of_Z 30) |}.
Proof. do 4 eexists. split; [vm_compute; reflexivity|]. repeat split. Qed.

(** No route of the dive module reaches the provider. *)
Lemma dive_module_issues_no_query {S : Type} (exported : Client S) (s : S)
  (req : Request Dives.Body) r s' calls :
  Dives.api exported req s = Some (r, s', calls) -> s' = s /\ calls = [].
Proof.
  unfold Dives.api, Dives.supabase, serve. destruct (dispatch Dives.router req) as [[h on_throw]|]; [|done].
  destruct (run_Unbound (S:=S) h s) as [res ->]. by intros [= <- <- <-].
Qed.

(** C1 (the code departs from the claim). The module that declares the
    dive routes never binds [supabase]: a creation request that carries a
    token throws at the first use of the client, the catch answers 500, no
    query reaches the provider and its state is unchanged; three creations
    in a row give three such answers, not the dive numbers 1, 2, 3. *)
Theorem create_never_reaches_the_provider
  {S : Type} (exported : Client S) (s : S) (d1 d2 d3 : Qc) :
  Dives.api exported (sample_create d1) s = Some (Dives.create_rescue, s, [])
  /\ status Dives.create_rescue = 500
  /\ in_turn (Dives.supabase exported) Dives.router
             [sample_create d1; sample_create d2; sample_create d3] s
     = Some ([Dives.create_rescue; Dives.create_rescue; Dives.create_rescue], s).
Proof. repeat split. Qed.

(** * Further properties of the routes *)

(** ** The statistics of a profile *)

Lemma count_types_from (diveStats : list DiveStat) (acc : Obj) (cnt : string -> Z) :
  (forall t, 0 <= cnt t) ->
  (forall t, obj_get acc t = if Z.eqb (cnt t) 0 then None else Some (JInt (cnt t))) ->
  forall t,
    obj_get (foldl (fun acc dive =>
                      let key := ds_dive_type dive in
                      match obj_get acc key with
                      | Some (JNum n) => obj_set acc key (JNum (n + 1)%Qc)
                      | _ => obj_set acc key (JInt 1)
                      end) acc diveStats) t
    = let n := cnt t + Z.of_nat (List.length (of_type t diveStats)) in
      if Z.eqb n 0 then None else Some (JInt n).
Proof.
  revert acc cnt. induction diveStats as [|d l IH]; intros acc cnt Hpos Hacc t.
  - simpl. rewrite Z.add_0_r. apply Hacc.
  - cbn [foldl].
    rewrite (IH _ (fun t => cnt t + if String.eqb (ds_dive_type d) t then 1 else 0)).
    + unfold of_type. rewrite filter_cons. cbn zeta.
      destruct (String.eqb (ds_dive_type d) t); simpl; [|by rewrite Z.add_0_r].
      by replace (cnt t + 1 + Z.of_nat (List.length (filter (fun d0 => String.eqb (ds_dive_type d0) t) l)))
        with (cnt t + Z.pos (Pos.of_succ_nat (List.length (filter (fun d0 => String.eqb (ds_dive_type d0) t) l))))
        by lia.
    + intros t'. specialize (Hpos t'). destruct (String.eqb (ds_dive_type d) t'); lia.
    + intros t'. cbn zeta. rewrite (Hacc (ds_dive_type d)).
      destruct (Z.eqb_spec (cnt (ds_dive_type d)) 0) as [E0|Hn0].
      * rewrite obj_get_set.
        destruct (String.eqb_spec (ds_dive_type d) t') as [E|Hne].
        -- rewrite <- E, E0. simpl. done.
        -- rewrite Z.add_0_r. apply Hacc.
      * unfold JInt at 1. rewrite obj_get_set.
        destruct (String.eqb_spec (ds_dive_type d) t') as [E|Hne].
        -- rewrite <- E. specialize (Hpos (ds_dive_type d)).
           destruct (Z.eqb_spec (cnt (ds_dive_type d) + 1) 0); [lia|].
           unfold JInt. by rewrite Z2Qc_inj_add.
        -- rewrite Z.add_0_r. apply Hacc.
Qed.

Lemma count_types_get (diveStats : list DiveStat) (t : string) :
  obj_get (Users.count_types diveStats) t
  = match of_type t diveStats with
    | [] => None
    | rows => Some (JInt (Z.of_nat (List.length rows)))
    end.
Proof.
  unfold Users.count_types.
  rewrite (count_types_from diveStats [] (fun _ => 0)); [|done|done].
  cbn zeta. rewrite Z.add_0_l. by destruct (of_type t diveStats).
Qed.



(** ** The dive routes: the rows they answer with *)

Lemma obj_get_delete (o : Obj) (k k' : string) :
  obj_get (obj_delete o k) k' = if String.eqb k k' then None else obj_get o k'.
Proof.
  unfold obj_delete. induction o as [|[c v] o IH].
  - simpl. by destruct (String.eqb k k').
  - rewrite filter_cons. simpl.
    destruct (String.eqb_spec c k) as [E|Hne]; simpl.
    + rewrite IH. destruct (String.eqb_spec k k') as [E'|Hne']; [done|].
      destruct (String.eqb_spec c k') as [E''|]; [congruence|done].
    + rewrite IH. destruct (String.eqb_spec c k') as [E'|Hne'].
      * destruct (String.eqb_spec k k') as [E''|]; [congruence|done].
      * done.
Qed.

Lemma js_or_truthy (x : option JSON) (d : JSON) :
  truthy (Some d) = true -> truthy (Some (js_or x d)) = true.
Proof.
  intros Hd. unfold js_or. destruct (truthy x) eqn:E; [|done].
  destruct x as [v|]; [exact E | discriminate E].
Qed.

Lemma js_or_either (x : option JSON) (d : JSON) :
  (truthy x = true /\ x = Some (js_or x d)) \/ (truthy x = false /\ js_or x d = d).
Proof.
  unfold js_or. destruct (truthy x) eqn:E; [left | by right].
  destruct x as [v|]; [done | discriminate E].
Qed.

Lemma with_diver_get (dive : Obj) (c : string) :
  obj_get (Dives.with_diver dive) c
  = if String.eqb c "user_experience"
    then Some (js_or (opt_prop (obj_get dive "users") "diving_experience") (JStr "unknown"))
    else if String.eqb c "user_name"
    then Some (js_or (opt_prop (obj_get dive "users") "name") (JStr "알 수 없음"))
    else obj_get dive c.
Proof.
  unfold Dives.with_diver. rewrite !obj_get_set.
  rewrite (String.eqb_sym "user_experience"), (String.eqb_sym "user_name"). done.
Qed.





(** ** The token of a request *)

Lemma prefix_app (p t : string) : String.prefix p (p ++ t) = true.
Proof.
  induction p as [|c p IH]; simpl; [by destruct t|]. by destruct (ascii_dec c c).
Qed.

Lemma substring_all (t : string) : substring 0 (String.length t) t = t.
Proof. induction t as [|c t IH]; simpl; [done|]. by rewrite IH. Qed.

Lemma replace_prefix (s p r : string) :
  String.prefix p s = true ->
  JS.replace s p r
  = (r ++ substring (String.length p) (String.length s - String.length p) s)%string.
Proof. destruct s; simpl; by intros ->. Qed.

Lemma replace_at_start (p t : string) : JS.replace (p ++ t) p "" = t.
Proof.
  rewrite replace_prefix by apply prefix_app. simpl String.append at 1.
  assert (forall q, String.length (q ++ t) - String.length q = String.length t)%nat as Hlen.
  { induction q as [|a q IH]; simpl; [apply Nat.sub_0_r | exact IH]. }
  rewrite Hlen. clear Hlen.
  induction p as [|a q IH]; simpl; [apply substring_all | exact IH].
Qed.

Lemma replace_absent (s p r : string) : JS.includes s p = false -> JS.replace s p r = s.
Proof.
  induction s as [|c s IH]; simpl.
  - intros H. apply orb_false_elim in H as [H _]. by rewrite H.
  - intros H. apply orb_false_elim in H as [H1 H2]. rewrite H1. by rewrite IH.
Qed.



Ltac enter_create Htoken Hne :=
  unfold Dives.create; rewrite Htoken, truthy_str_Some by exact Hne;
  cbn [negb default from_option id].



(** ** The checks of the creation route *)

Lemma missing_lacking (b : Dives.Body) (f : string) :
  f ∈ filter (Dives.missing b) Dives.requiredFields <-> lacking b f.
Proof.
  rewrite list_elem_of_filter. unfold Dives.requiredFields, lacking, Dives.missing.
  rewrite !elem_of_cons, elem_of_nil. split.
  - intros [Hm [-> | [-> | [-> | [-> | []]]]]]; simpl in Hm.
    + left. split; [done|]. destruct (Dives.dive_type b) as [[|]|]; simpl in *; auto; done.
    + right; left. split; [done|].
      destruct (Dives.location_name b) as [[|]|]; simpl in *; auto; done.
    + right; right; left. split; [done|].
      destruct (Dives.dive_date b) as [[|]|]; simpl in *; auto; done.
    + right; right; right. split; [done|].
      destruct (Dives.max_depth b) as [q|]; simpl in *; auto.
      case_bool_decide; simpl in *; [subst; auto | done].
  - intros [[-> [-> | ->]] | [[-> [-> | ->]] | [[-> [-> | ->]] | [-> [-> | ->]]]]];
      simpl; auto 10.
Qed.



Lemma nothing_missing (b : Dives.Body) :
  complete b -> filter (Dives.missing b) Dives.requiredFields = [].
Proof.
  intros ((type & Htype & ?) & (place & Hplace & ?) & (date & Hdate & ?)
          & depth & Hdepth & ?).
  assert (forall f, Dives.missing b f = false) as Hm.
  { intros f. unfold Dives.missing.
    rewrite Htype, Hplace, Hdate, Hdepth, !truthy_str_Some by done.
    simpl. rewrite bool_decide_eq_false_2 by done. by repeat case_match. }
  unfold Dives.requiredFields. rewrite !filter_cons, filter_nil, !Hm. reflexivity.
Qed.

Ltac pass_required Hall :=
  cbn [data error found]; rewrite (nothing_missing _ Hall);
  change (0 <? length (@nil string))%nat with false; cbv iota.



Ltac pass_checks Ht Hok :=
  let Hall := fresh "Hall" in
  let Htype := fresh "Htype" in
  let Hallowed := fresh "Hallowed" in
  let Hdepth := fresh "Hdepth" in
  let Htoken := fresh "Htoken" in
  let Hne := fresh "Hne" in
  destruct Hok as (Hall & Htype & Hallowed & Hdepth);
  destruct Ht as [Htoken Hne]; enter_create Htoken Hne;
  eexists; split; [reflexivity|]; pass_required Hall;
  rewrite Htype, Hdepth; cbn [default from_option id];
  rewrite (bool_decide_eq_true_2 (_ ∈ ["freediving"; "scuba"]))
    by (destruct Hallowed as [-> | ->]; repeat constructor);
  cbn [negb]; eexists; split; [reflexivity|].







(** ** The registration route: the other outcomes *)

Ltac enter_register H :=
  let He := fresh "He" in
  let Hp := fresh "Hp" in
  let Hn := fresh "Hn" in
  let Hlen := fresh "Hlen" in
  destruct H as (He & Hp & Hn & ? & ? & ? & Hlen);
  unfold Auth.register; rewrite He, Hp, Hn, !truthy_str_Some by done;
  cbn [negb orb default from_option id];
  rewrite (proj2 (Nat.ltb_ge _ _) Hlen).

(** X11. The failures of a registration that passed the checks: a sign-up
    error whose message does not contain "already registered" is answered
    400 with the error "Auth Error" and the provider's message; a failed
    insertion of the row is answered 500 with the provider's message under
    [details], and nothing is asked after it (the account just created is
    left in place); a sign-up that reports neither an error nor a user, and
    an insertion that reports neither an error nor a row, raise. *)
Theorem register_failures (req : Request Auth.Body) (e p n : string)
  (H : registrable (body req) e p n) :
  exists level k,
    Auth.register ∅ req = Ask (AuthSignUp e p n level) k
    /\ (forall reply err,
          error reply = Some err ->
          JS.includes (message err) "already registered" = false ->
          exists r, k reply = Done r /\ status r = 400
                    /\ field r "error" = Some (JStr "Auth Error")
                    /\ field r "message" = Some (JStr (message err)))
    /\ (forall reply,
          error reply = None ->
          (data reply = None
           \/ exists sess, data reply = Some {| user := None; session := sess |}) ->
          k reply = Raise)
    /\ (forall reply u sess,
          error reply = None ->
          data reply = Some {| user := Some u; session := sess |} ->
          exists row k',
            k reply = Ask (UsersInsert row) k'
            /\ (forall inserted err,
                  error inserted = Some err ->
                  exists r, k' inserted = Done r /\ status r = 500
                            /\ field r "error" = Some (JStr "Database Error")
                            /\ field r "details" = Some (JStr (message err)))
            /\ (forall inserted,
                  error inserted = None -> data inserted = None ->
                  k' inserted = Raise)).
Proof.
  enter_register H. do 2 eexists. split; [reflexivity|]. repeat apply conj.
  - intros reply err E Hother. cbv beta. rewrite E, Hother. eexists. by repeat split.
  - intros reply E [D | [sess D]]; cbv beta; by rewrite E, D.
  - intros reply u sess E D. cbv beta. rewrite E, D.
    do 2 eexists. split; [reflexivity|]. split.
    + intros inserted err E'. cbv beta. rewrite E'. eexists. by repeat split.
    + intros inserted E' D'. cbv beta. by rewrite E', D'.
Qed.

Lemma register_failures_witness :
  exists level k r,
    Auth.register ∅ sample_register
    = Ask (AuthSignUp "kim@example.com" "secret1" "Kim" level) k
    /\ k (failed sample_auth_error) = Done r
    /\ status r = 400
    /\ field r "message" = Some (JStr "Password is too weak").
Proof.
  assert (registrable (body sample_register) "kim@example.com" "secret1" "Kim") as H.
  { repeat split; try done. vm_compute. lia. }
  destruct (register_failures sample_register _ _ _ H) as (level & k & E & Hk & _).
  destruct (Hk (failed sample_auth_error) sample_auth_error eq_refl eq_refl)
    as (r & Er & Hs & _ & Hm).
  exists level, k, r. repeat split; [exact E | exact Er | exact Hs | exact Hm].
Defined.

(** X12. What a registration that passed the checks sends: the experience
    level given to the sign-up and written to the row is the body's, or
    "beginner" when the body gives none or an empty one; the row's location
    is the body's, or null when the body gives none or an empty one; the
    row's [created_at] is the reading of the clock; and the row has exactly
    the columns id, email, name, diving_experience, location, total_dives
    and created_at. *)
Theorem register_defaults (req : Request Auth.Body) (e p n : string)
  (H : registrable (body req) e p n) :
  exists level k,
    Auth.register ∅ req = Ask (AuthSignUp e p n level) k
    /\ ((Auth.diving_experience (body req) = None
         \/ Auth.diving_experience (body req) = Some "") -> level = "beginner")
    /\ (forall x, Auth.diving_experience (body req) = Some x -> x <> "" -> level = x)
    /\ forall reply u sess,
         error reply = None ->
         data reply = Some {| user := Some u; session := sess |} ->
         exists row k',
           k reply = Ask (UsersInsert row) k'
           /\ Object_keys row = ["id"; "email"; "name"; "diving_experience";
                                 "location"; "total_dives"; "created_at"]
           /\ obj_get row "diving_experience" = Some (JStr level)
           /\ obj_get row "created_at" = Some (JStr (clock req))
           /\ ((Auth.location (body req) = None \/ Auth.location (body req) = Some "") ->
               obj_get row "location" = Some JNull)
           /\ (forall x, Auth.location (body req) = Some x -> x <> "" ->
                         obj_get row "location" = Some (JStr x)).
Proof.
  enter_register H. do 2 eexists. split; [reflexivity|]. repeat apply conj.
  - by intros [-> | ->].
  - intros x -> Hx. unfold JS.str_or. by rewrite truthy_str_Some.
  - intros reply u sess E D. cbv beta. rewrite E, D.
    do 2 eexists. split; [reflexivity|]. repeat apply conj; try reflexivity.
    + by intros [-> | ->].
    + intros x -> Hx. simpl. unfold js_or. simpl.
      by destruct (String.eqb_spec x "").
Qed.

Lemma register_defaults_witness :
  exists k, Auth.register ∅ sample_register
            = Ask (AuthSignUp "kim@example.com" "secret1" "Kim" "beginner") k.
Proof.
  assert (registrable (body sample_register) "kim@example.com" "secret1" "Kim") as H.
  { repeat split; try done. vm_compute. lia. }
  destruct (register_defaults sample_register _ _ _ H) as (level & k & E & Hl & _).
  exists k. by rewrite <- (Hl (or_introl eq_refl)).
Defined.

(** ** The login, logout and profile routes *)

(** X13. A login with both texts signs in with them. Every error of the
    sign-in gets the same answer, 401 with the code INVALID_CREDENTIALS.
    After a sign-in with a user and a session the row of the user is read,
    and the answer is 200 whatever that read replies: with the row when it
    arrived, and otherwise with the identifier, the address and the name of
    the signed-in user, the name being "이름 없음" when the metadata has none
    or an empty one; the four fields of the session are answered under
    [auth]. A sign-in without a user, or without a session, raises. *)
Theorem login_outcomes (req : Request Auth.Body) (e p : string)
  (H : credentials (body req) e p) :
  exists k,
    Account.login req = Account.Await (Account.SignInWithPassword e p) k
    /\ (exists r,
          status r = 401 /\ field r "code" = Some (JStr "INVALID_CREDENTIALS")
          /\ forall reply, error reply <> None -> k reply = Account.Answer r)
    /\ (forall reply,
          error reply = None ->
          (data reply = None
           \/ exists sess, data reply
                           = Some {| Account.who := None; Account.opened := sess |}) ->
          k reply = Account.Fail)
    /\ (forall reply u sess,
          error reply = None ->
          data reply = Some {| Account.who := Some u; Account.opened := sess |} ->
          exists k',
            k reply = Account.Await (Account.Table (UsersSelectById (Account.who_id u))) k'
            /\ (sess = None -> forall row, k' row = Account.Fail)
            /\ (forall tokens row,
                  sess = Some tokens ->
                  exists r,
                    k' row = Account.Answer r
                    /\ status r = 200
                    /\ field r "auth" = Some (auth_of tokens)
                    /\ (forall userData, data row = Some userData ->
                                         field r "user" = Some (JObj userData))
                    /\ (data row = None ->
                        exists name,
                          field r "user"
                          = Some (JObj [("id", JStr (Account.who_id u));
                                        ("email", JStr (Account.who_email u));
                                        ("name", name)])
                          /\ truthy (Some name) = true
                          /\ (truthy (opt_prop (Account.who_metadata u) "name") = false ->
                              name = JStr "이름 없음")
                          /\ (truthy (opt_prop (Account.who_metadata u) "name") = true ->
                              opt_prop (Account.who_metadata u) "name" = Some name)))).
Proof.
  destruct H as (He & Hp & ? & ?). unfold Account.login.
  rewrite He, Hp, !truthy_str_Some by done. cbn [negb orb default from_option id].
  eexists. split; [reflexivity|]. repeat apply conj.
  - eexists. split; [|split]; [| |intros reply Herr; cbv beta;
                                   destruct (error reply); [reflexivity | done]];
      reflexivity.
  - intros reply E [D | [sess D]]; cbv beta; by rewrite E, D.
  - intros reply u sess E D. cbv beta. rewrite E, D.
    eexists. split; [reflexivity|]. split.
    + by intros -> row.
    + intros tokens row ->. eexists. split; [reflexivity|].
      split; [reflexivity|]. split; [reflexivity|]. split.
      * by intros userData ->.
      * intros ->. eexists. split; [reflexivity|]. split; [|split].
        -- by apply js_or_truthy.
        -- unfold js_or. by intros ->.
        -- unfold js_or. intros Ht. rewrite Ht.
           by destruct (opt_prop (Account.who_metadata u) "name").
Qed.

Lemma login_outcomes_witness :
  exists k k' r,
    Account.login sample_login
    = Account.Await (Account.SignInWithPassword "kim@example.com" "secret1") k
    /\ k (found {| Account.who := Some sample_identity;
                   Account.opened := Some sample_tokens |})
       = Account.Await (Account.Table (UsersSelectById "u-1")) k'
    /\ k' (failed {| code := Some "PGRST116"; message := "no rows" |}) = Account.Answer r
    /\ status r = 200
    /\ field r "user" = Some (JObj [("id", JStr "u-1"); ("email", JStr "kim@example.com");
                                    ("name", JStr "이름 없음")]).
Proof.
  assert (credentials (body sample_login) "kim@example.com" "secret1") as H
    by (repeat split; done).
  destruct (login_outcomes sample_login _ _ H) as (k & E & _ & _ & Hk).
  destruct (Hk (found {| Account.who := Some sample_identity;
                         Account.opened := Some sample_tokens |})
              sample_identity (Some sample_tokens) eq_refl eq_refl)
    as (k' & E' & _ & Hrow).
  destruct (Hrow sample_tokens (failed {| code := Some "PGRST116"; message := "no rows" |})
              eq_refl) as (r & Er & Hs & _ & _ & Hfall).
  destruct (Hfall eq_refl) as (name & Hu & _ & Hdef & _).
  exists k, k', r. repeat split; [exact E | exact E' | exact Er | exact Hs |].
  rewrite Hu. by rewrite (Hdef eq_refl).
Defined.

(** X14. The logout route answers 200 with the same body in every case in
    which it answers: without a token it asks the provider nothing; with a
    token it awaits one sign-out, which is given neither the token nor
    anything else of the request, and whatever the sign-out replies, an
    error included, the answer is the same. Against a provider whose
    sign-out resolves, the route therefore always answers 200. *)
Theorem logout_outcomes (req : Request Auth.Body) :
  ((authorization req = None \/ authorization req = Some ""
    \/ authorization req = Some "Bearer ") ->
   Account.logout req = Account.Answer Account.logged_out)
  /\ (forall t, carries req t ->
        Account.logout req
        = Account.Await Account.SignOut (fun _ => Account.Answer Account.logged_out))
  /\ status Account.logged_out = 200
  /\ forall (S : Type) (c : Account.Session S) (s : S),
       (forall s0, exists reply s1, Account.resolve c Account.SignOut s0 = (Some reply, s1)) ->
       (Account.play c (Account.logout req) s).1.1 = Some Account.logged_out.
Proof.
  unfold Account.logout. repeat apply conj.
  - unfold Dives.bearer. by intros [-> | [-> | ->]].
  - intros t [-> Hne]. by rewrite truthy_str_Some.
  - reflexivity.
  - intros S c s Hresolves. destruct (JS.truthy_str (Dives.bearer req)); [|reflexivity].
    simpl. by destruct (Hresolves s) as (reply & s1 & ->).
Qed.

Lemma logout_outcomes_witness :
  Account.logout (sample_account_request (Some "Bearer t-kim"))
  = Account.Await Account.SignOut (fun _ => Account.Answer Account.logged_out).
Proof.
  apply (proj1 (proj2 (logout_outcomes (sample_account_request (Some "Bearer t-kim"))))
           "t-kim").
  split; [reflexivity | done].
Defined.

(** X15. The profile route of the account: without a token the answer is
    401 and nothing is asked; a token the provider does not resolve to a
    user is answered 401 and the table is not read; for a resolved token the
    row of that user is read, every error of that read is answered 404
    whatever its code, and otherwise the answer is 200 with the row, or with
    null when none arrived. *)
Theorem account_profile (req : Request Auth.Body) :
  ((authorization req = None \/ authorization req = Some ""
    \/ authorization req = Some "Bearer ") ->
   answers_at_once (Account.profile ∅ req) 401)
  /\ forall t, carries req t ->
       exists k,
         Account.profile ∅ req = Ask (AuthGetUser t) k
         /\ (forall reply,
               (error reply <> None \/ data reply = Some None) -> data reply <> None ->
               exists r, k reply = Done r /\ status r = 401)
         /\ (forall u, exists k',
               k (found (Some u)) = Ask (UsersSelectById (auth_id u)) k'
               /\ (forall row, error row <> None ->
                     exists r, k' row = Done r /\ status r = 404)
               /\ (forall row, error row = None ->
                     exists r, k' row = Done r /\ status r = 200
                               /\ field r "user"
                                  = Some (match data row with
                                          | Some userData => JObj userData
                                          | None => JNull
                                          end))).
Proof.
  unfold Account.profile. split.
  - unfold answers_at_once, Dives.bearer. intros [-> | [-> | ->]]; simpl; eauto.
  - intros t [-> Hne]. rewrite truthy_str_Some by done.
    cbn [negb default from_option id]. eexists. split; [reflexivity|]. split.
    + intros reply Hbad Hdata. cbv beta. destruct (data reply) as [[u|]|]; [| |done].
      * destruct Hbad as [Herr | [=]]. destruct (error reply); [eauto | done].
      * destruct (error reply); eauto.
    + intros u. eexists. split; [reflexivity|]. split.
      * intros row Herr. cbv beta. destruct (error row); [eauto | done].
      * intros row ->. eexists. split; [reflexivity|]. split; [reflexivity|].
        unfold field. simpl. by destruct (data row).
Qed.

Lemma account_profile_witness :
  exists k k' r,
    Account.profile ∅ (sample_account_request (Some "Bearer t-kim"))
    = Ask (AuthGetUser "t-kim") k
    /\ k (found (Some kim)) = Ask (UsersSelectById "u-1") k'
    /\ k' (failed {| code := Some "57014"; message := "canceling statement" |}) = Done r
    /\ status r = 404.
Proof.
  destruct (proj2 (account_profile (sample_account_request (Some "Bearer t-kim"))) "t-kim")
    as (k & E & _ & Hk); [split; [reflexivity | done]|].
  destruct (Hk kim) as (k' & E' & Herr & _).
  destruct (Herr (failed {| code := Some "57014"; message := "canceling statement" |}))
    as (r & Er & Hs); [done|].
  by exists k, k', r.
Defined.

(** ** The search handler *)

Lemma skip_ws_blank (l : list ascii) :
  Forall (fun c => JS.between 9 13 c || JS.between 32 32 c = true) l ->
  JS.skip_ws (List.length l) l = [].
Proof.
  induction 1 as [|c l Hc _ IH]; [reflexivity|].
  cbn [List.length JS.skip_ws]. unfold JS.ws_width. rewrite Hc. exact IH.
Qed.

Lemma trim_blank (s : string) : blank s -> JS.trim s = "".
Proof. intros H. unfold JS.trim, JS.trimStart. by rewrite skip_ws_blank. Qed.

(** X16. The search handler answers 400, asking nothing, when the term is
    absent, empty or made of spaces, tabs and line breaks only. A term of
    two units or more once trimmed is searched for as given, untrimmed,
    between two percent signs, with at most 20 results asked for; an error
    of the query is answered 500; otherwise the answer is 200 with the rows,
    their number under [total_found] and the term as given; a reply with
    neither error nor rows raises. *)
Theorem search_outcomes (req : Request Users.Body) :
  ((query req !! "q" = None \/ exists q, query req !! "q" = Some q /\ blank q) ->
   answers_at_once (Users.search_users ∅ req) 400)
  /\ forall q,
       query req !! "q" = Some q -> (2 <= JS.length (JS.trim q))%nat ->
       exists location experience k,
         Users.search_users ∅ req
         = Ask (UsersSearch ("%" ++ q ++ "%") location experience 20) k
         /\ (forall reply, error reply <> None ->
               exists r, k reply = Done r /\ status r = 500)
         /\ (forall reply, error reply = None -> data reply = None -> k reply = Raise)
         /\ (forall reply rows,
               error reply = None -> data reply = Some rows ->
               exists r,
                 k reply = Done r /\ status r = 200
                 /\ field r "results" = Some (JArr rows)
                 /\ field r "total_found" = Some (JInt (Z.of_nat (List.length rows)))
                 /\ inner r "query" "search_term" = Some (JStr q)).
Proof.
  unfold Users.search_users. split.
  - unfold answers_at_once. intros [-> | (q & -> & Hq)]; [simpl; eauto|].
    cbn [default from_option id]. rewrite trim_blank by done.
    rewrite orb_true_r. eauto.
  - intros q -> Hlen.
    assert (q <> "") as Hq by (intros ->; vm_compute in Hlen; lia).
    rewrite truthy_str_Some by done. cbn [negb default from_option id orb].
    rewrite (proj2 (Nat.ltb_ge _ _) Hlen).
    do 3 eexists. split; [reflexivity|]. repeat apply conj.
    + intros reply Herr. cbv beta. destruct (error reply); [eauto | done].
    + intros reply E D. cbv beta. by rewrite E, D.
    + intros reply rows E D. cbv beta. rewrite E, D. eexists. by repeat split.
Qed.

Lemma search_outcomes_witness :
  answers_at_once (Users.search_users ∅ (sample_search_for "  ")) 400.
Proof.
  apply (proj1 (search_outcomes (sample_search_for "  "))).
  right. exists "  ". split; [reflexivity | repeat constructor].
Defined.

(** ** The users list: replies without a count, pages below 1 *)

Lemma parseInt_or_nonzero (x : option string) (d : Z) : d <> 0 -> JS.parseInt_or x d <> 0.
Proof.
  intros Hd. unfold JS.parseInt_or. destruct (JS.parseInt _) as [n|]; [|done].
  destruct (Z.eqb_spec n 0); done.
Qed.





(** ** The update of a profile: the order of the written properties *)

Lemma keys_set_fresh (o : Obj) (k : string) (v : JSON) :
  k ∉ Object_keys o -> Object_keys (obj_set o k v) = (Object_keys o ++ [k])%list.
Proof.
  unfold Object_keys. induction o as [|[k' v'] o IH]; simpl; [done|].
  intros Hk. apply not_elem_of_cons in Hk as [Hne Hk].
  destruct (String.eqb_spec k' k) as [->|_]; [done|]. simpl. by rewrite IH.
Qed.

Lemma keep_keys (b : gmap string JSON) (l : list string) (acc : Obj) :
  NoDup l -> (forall k, k ∈ l -> k ∉ Object_keys acc) ->
  Object_keys (foldl (Users.keep b) acc l)
  = (Object_keys acc ++ filter (fun k => is_Some (b !! k)) l)%list.
Proof.
  revert acc. induction l as [|f l IH]; intros acc Hnd Hfresh; simpl.
  - by rewrite filter_nil, app_nil_r.
  - apply NoDup_cons in Hnd as [Hf Hnd]. rewrite filter_cons. unfold Users.keep at 2.
    destruct (b !! f) as [v|] eqn:E.
    + rewrite decide_True by eauto. rewrite IH; [|done|].
      * rewrite keys_set_fresh by (apply Hfresh; constructor).
        by rewrite <- app_assoc.
      * intros k Hk [Hin | ->]%keys_set; [|done].
        by apply (Hfresh k); [constructor|].
    + rewrite decide_False by (by intros [? ?]). apply IH; [done|].
      intros k Hk. apply Hfresh. by constructor.
Qed.



(** ** The dives module as deployed: the reading routes *)



(** ** Paths no route takes *)

Lemma dispatch_deep {B : Type} (routes : list (Route B)) (req : Request B) :
  (2 <= List.length (path req))%nat -> dispatch routes req = None.
Proof.
  intros Hdeep. induction routes as [|r routes IH]; [reflexivity|]. simpl.
  destruct (same_method (verb r) (method req)); [|exact IH].
  destruct (at_path r), (path req) as [|a [|b l]]; simpl in *; try lia; exact IH.
Qed.



(** ** The allowed origins *)

Lemma split_cons (sep : ascii) (s : string) : exists p ps, Server.split sep s = p :: ps.
Proof.
  induction s as [|c r (p & ps & IH)]; simpl; [eauto|].
  destruct (Ascii.eqb c sep); [eauto|]. rewrite IH. eauto.
Qed.

Lemma join_split (sep : ascii) (s : string) : Server.join sep (Server.split sep s) = s.
Proof.
  induction s as [|c r IH]; [reflexivity|]. simpl.
  destruct (split_cons sep r) as (p & ps & E). rewrite E in IH |- *.
  destruct (Ascii.eqb_spec c sep) as [->|_].
  - by rewrite <- IH.
  - rewrite <- IH. by destruct ps.
Qed.

Lemma split_free (sep : ascii) (s p : string) :
  p ∈ Server.split sep s -> sep ∉ list_ascii_of_string p.
Proof.
  revert p. induction s as [|c r IH]; intros p; simpl.
  - intros ->%list_elem_of_singleton. apply not_elem_of_nil.
  - destruct (split_cons sep r) as (q & qs & E). rewrite E in IH |- *.
    destruct (Ascii.eqb_spec c sep) as [->|Hne].
    + intros [-> | Hin]%elem_of_cons; [apply not_elem_of_nil | by apply IH].
    + intros [-> | Hin]%elem_of_cons.
      * simpl. apply not_elem_of_cons. split; [done|]. apply IH. constructor.
      * apply IH. by constructor.
Qed.

Lemma split_length (sep : ascii) (s : string) :
  List.length (Server.split sep s)
  = S (List.length (filter (fun c => c = sep) (list_ascii_of_string s))).
Proof.
  induction s as [|c r IH]; [reflexivity|]. simpl.
  destruct (split_cons sep r) as (q & qs & E). rewrite E in IH |- *.
  rewrite filter_cons. destruct (Ascii.eqb_spec c sep) as [->|Hne].
  - rewrite decide_True by done. simpl in *. by rewrite IH.
  - rewrite decide_False by done. exact IH.
Qed.

(** X22. The origins allowed across sites are the two local defaults when
    the variable is unset or empty. Otherwise they are the pieces of its
    value between the commas, as they stand (nothing is trimmed or dropped):
    joined again with commas they give the value back, no piece holds a
    comma, and there is one piece more than there are commas. *)
Theorem allowed_origins (value : option string) :
  ((value = None \/ value = Some "") ->
   Server.allowedOrigins value = ["http://localhost:3000"; "http://frontend:3000"])
  /\ forall s, value = Some s -> s <> "" ->
       Server.join "," (Server.allowedOrigins value) = s
       /\ (forall p, p ∈ Server.allowedOrigins value -> comma_free p)
       /\ List.length (Server.allowedOrigins value)
          = S (List.length (filter (fun c => c = ","%char) (list_ascii_of_string s))).
Proof.
  unfold Server.allowedOrigins. split; [by intros [-> | ->]|].
  intros s -> Hs. rewrite truthy_str_Some by done. cbn [default from_option id].
  split; [apply join_split|]. split; [|apply split_length].
  intros p Hp. by apply split_free in Hp.
Qed.

Lemma allowed_origins_witness :
  Server.allowedOrigins (Some "https://a.example, https://b.example")
  = ["https://a.example"; " https://b.example"]
  /\ Server.join "," (Server.allowedOrigins (Some "https://a.example, https://b.example"))
     = "https://a.example, https://b.example".
Proof.
  split; [reflexivity|].
  by apply (proj2 (allowed_origins (Some "https://a.example, https://b.example"))
              "https://a.example, https://b.example").
Defined.

(** ** The settings of the provider *)

Lemma includes_prefix (s n : string) : String.prefix n s = true -> JS.includes s n = true.
Proof. destruct s; simpl; by intros ->. Qed.

Lemma includes_app (a n b : string) : JS.includes (a ++ n ++ b) n = true.
Proof.
  induction a as [|c a IH].
  - apply includes_prefix. apply (prefix_app n b).
  - change (JS.includes (String c (a ++ n ++ b)) n = true).
    cbn [JS.includes]. rewrite IH. apply orb_true_r.
Qed.

Lemma truthy_str_unset (x : option string) : JS.truthy_str x = false <-> unset x.
Proof.
  unfold unset. destruct x as [s|]; simpl; [|naive_solver].
  destruct (String.eqb_spec s ""); naive_solver.
Qed.



(** ** The filters of the dive list *)


